(** * The evict-slow-trend scheduler

    A shallow embedding of [pkg/schedule/schedulers/evict_slow_trend.go]:
    the persisted eviction state, the candidate detector, the four
    confirmation checks and the scheduling decision loop, followed by the
    properties of the specification that they satisfy or break.

    Conventions of the embedding:
    - a [uint64] store id, a length and a counter are integers of [Z];
    - a [float64] is a primitive binary64 float, so that the comparisons of
      the source are computed with the rounding of the source;
    - a [*core.StoreInfo] is an [option StoreInfo]; a method that reads a
      field through a nil pointer stops the process ([Panic]);
    - the receiver's configuration, the wall clock, the fail point and every
      call sent to a collaborator (metrics, log, storage, cluster hooks) live
      in a [World] threaded through a state monad; a log line is recorded
      with its message and its store id.

    [IsScheduleAllowed], [getKeyRangesByID] and the constructor depend on the
    operator controller and on key ranges only; they are not needed by what
    follows and are left out. *)

From Stdlib Require Import ZArith List Bool String Lia.
From Stdlib Require Import Floats.PrimFloat Floats.SpecFloat Floats.FloatOps.
From Stdlib Require Import Uint63.
Import ListNotations.
Open Scope Z_scope.

(** ** 64-bit floating point, as Go uses it here *)

Module Float64.

(** [float64(n)] for a non-negative [int] below [2^63]. *)
Definition of_int (n : Z) : float := PrimFloat.of_uint63 (Uint63.of_Z n).

(** [int(f)]: the fraction is discarded.  Go leaves the result of a value
    that is not a number or does not fit in an [int64] to the platform;
    amd64 returns the least [int64], which is what is written here. *)
Definition to_int (f : float) : Z :=
  match Prim2SF f with
  | S754_zero _ => 0
  | S754_finite s m e =>
      let v := if 0 <=? e then Z.pos m * 2 ^ e else Z.pos m / 2 ^ (- e) in
      let r := if s then - v else v in
      if (- 2 ^ 63 <=? r) && (r <? 2 ^ 63) then r else - 2 ^ 63
  | S754_infinity _ | S754_nan => - 2 ^ 63
  end.

Definition gt (a b : float) : bool := PrimFloat.ltb b a.
Definition lt (a b : float) : bool := PrimFloat.ltb a b.
Definition le (a b : float) : bool := PrimFloat.leb a b.

End Float64.

(** [alterEpsilon = 1e-9], as the nearest binary64 value. *)
Definition alterEpsilon : float := 0x1.12e0be826d695p-30%float.
(** The constant [1.1] of [checkStoreFasterThanOthers], as a binary64 value. *)
Definition onePointOne : float := 0x1.199999999999ap+0%float.
(** default gap for re-check the slow node, unit: s *)
Definition minReCheckDurationGap : Z := 120.
(** default gap for recovery, unit: s *)
Definition defaultRecoveryDurationGap : Z := 600.

Definition EvictSlowTrendName : string := "evict-slow-trend-scheduler".
Definition EvictSlowTrendType : string := "evict-slow-trend".

(** ** Wall-clock time, after Go's package [time]

    A [time.Time] is the number of nanoseconds since the zero [Time]
    (January 1, year 1, 00:00 UTC), so the zero value of the type is [0].
    A [time.Duration] is an [int64] count of nanoseconds and [Time.Sub]
    saturates at its two ends. *)

Module GoTime.

Definition Time : Type := Z.
Definition zero : Time := 0.
Definition Second : Z := 1000000000.
Definition maxDuration : Z := 2 ^ 63 - 1.
Definition minDuration : Z := - 2 ^ 63.

(** [t.Sub(u)] *)
Definition Sub (t u : Time) : Z :=
  Z.max minDuration (Z.min maxDuration (t - u)).

(** [uint64(d.Seconds())].  [Seconds] computes
    [float64(d / Second) + float64(d % Second) / 1e9]; below [2^24]
    seconds that sum has the whole part [d / Second] exactly, and from
    there on rounding can only add one second, far above the two gaps
    (120 and 600) the scheduler compares with.  A negative value
    converted to [uint64] wraps around, as on amd64. *)
Definition SecondsAsUint64 (d : Z) : Z := (Z.quot d Second) mod 2 ^ 64.

(** [t.Compare(u) <= 0] *)
Definition notAfter (t u : Time) : bool := t <=? u.

End GoTime.
Import GoTime.

(** ** The cluster snapshot *)

(** Modelled from the spec: the lifecycle status of a node, declared in
    package [core] outside this file: "one of {Preparing, Serving, Removed,
    Other}". *)
Inductive NodeState : Type := Preparing | Serving | Removed | Other.

(** The trend signal of a store ([pdpb.SlowTrend]). *)
Record SlowTrend : Type := mkSlowTrend {
  CauseValue : float;
  CauseRate : float;
  ResultValue : float;
  ResultRate : float }.

(** Modelled from the spec: a node observation ([core.StoreInfo], declared
    outside this file): identity, lifecycle status, optional trend signal and
    last heartbeat timestamp, and the address the metrics are labelled
    with.  The methods of the source read these fields through the pointer:
    called on a store of the snapshot they are the projections below, called
    on nil they do not return (see [deref]). *)
Record StoreInfo : Type := mkStore {
  GetID : Z;
  GetAddress : string;
  GetNodeState : NodeState;
  GetSlowTrend : option SlowTrend;
  GetLastHeartbeatTS : Time }.

Definition IsRemoved (s : StoreInfo) : bool :=
  match GetNodeState s with Removed => true | _ => false end.
Definition IsPreparing (s : StoreInfo) : bool :=
  match GetNodeState s with Preparing => true | _ => false end.
Definition IsServing (s : StoreInfo) : bool :=
  match GetNodeState s with Serving => true | _ => false end.

(** A Go [error]: [None] is [nil]. *)
Definition error : Type := option string.

(** Modelled from the spec: the cluster the scheduler reads
    ([sche.SchedulerCluster], an interface declared outside this file): the
    stores of the snapshot, the storage-engine flag, the affected-store ratio
    of the scheduling configuration, and the answer of the "store evicted"
    hook. *)
Record SchedulerCluster : Type := mkCluster {
  GetStores : list StoreInfo;
  IsRaftKV2 : bool;
  GetSlowStoreEvictingAffectedStoreRatioThreshold : float;
  SlowTrendEvictedResult : Z -> error }.

(** [cluster.GetStore(id)]: the store of the snapshot with this id, or nil. *)
Definition GetStore (cluster : SchedulerCluster) (id : Z) : option StoreInfo :=
  find (fun s => GetID s =? id) (GetStores cluster).

(** ** The scheduler's configuration *)

Module slowCandidate.

Record t : Type := mk {
  storeID : Z;
  captureTS : Time }.

(** [slowCandidate{}] *)
Definition empty : t := {| storeID := 0; captureTS := GoTime.zero |}.

(** [a == b] on the struct. *)
Definition eqb (a b : t) : bool :=
  (storeID a =? storeID b) && (captureTS a =? captureTS b).

End slowCandidate.

(** [endpoint.ConfigStorage]: the answer of [SaveScheduleConfig(name, data)].
    The data is the encoded configuration, see [EncodeConfig]. *)
Record ConfigStorage : Type := mkStorage {
  SaveScheduleConfig : string -> list Z -> error }.

Record evictSlowTrendSchedulerConfig : Type := mkConfig {
  storage : ConfigStorage;
  evictCandidate : slowCandidate.t;
  lastEvictCandidate : slowCandidate.t;
  (* Only evict one store for now *)
  EvictedStores : list Z }.

Definition with_evictCandidate (x : slowCandidate.t)
    (c : evictSlowTrendSchedulerConfig) : evictSlowTrendSchedulerConfig :=
  {| storage := storage c; evictCandidate := x;
     lastEvictCandidate := lastEvictCandidate c;
     EvictedStores := EvictedStores c |}.

Definition with_lastEvictCandidate (x : slowCandidate.t)
    (c : evictSlowTrendSchedulerConfig) : evictSlowTrendSchedulerConfig :=
  {| storage := storage c; evictCandidate := evictCandidate c;
     lastEvictCandidate := x;
     EvictedStores := EvictedStores c |}.

Definition with_EvictedStores (x : list Z)
    (c : evictSlowTrendSchedulerConfig) : evictSlowTrendSchedulerConfig :=
  {| storage := storage c; evictCandidate := evictCandidate c;
     lastEvictCandidate := lastEvictCandidate c;
     EvictedStores := x |}.

(** ** The world around one call *)

(** What the code sends to its collaborators, in the order it is sent. *)
Inductive Event : Type :=
| SchedulerCounterInc (name event : string)
| ActionStatusInc (label : string)
| MiscGaugeSet (label : string) (value : Z)
| EvictedStatusGaugeSet (address : string) (id : Z) (value : Z)
| LogInfo (msg : string) (storeId : Z)
| StorageSave (name : string) (data : list Z)
| NotifyEvicted (id : Z)
| NotifyRecovered (id : Z).

Record World : Type := mkWorld {
  conf : evictSlowTrendSchedulerConfig;
  now : Time;          (* what [time.Now()] reads all along the call *)
  persistFail : bool;  (* the fail point "persistFail" is switched on *)
  trace : list Event }.

(** Outcome of a call: a value, or the process stopped by a nil pointer
    dereference. *)
Inductive Res (A : Type) : Type :=
| Ok (a : A)
| Panic.
Arguments Ok {A} a.
Arguments Panic {A}.

Definition M (A : Type) : Type := World -> Res (A * World).

Definition ret {A} (a : A) : M A := fun w => Ok (a, w).

Definition bind {A B} (m : M A) (k : A -> M B) : M B :=
  fun w => match m w with
           | Ok (a, w') => k a w'
           | Panic => Panic
           end.

Declare Scope go_scope.
Delimit Scope go_scope with go.
Notation "x <- m ;; k" := (bind m (fun x => k))
  (at level 61, m at next level, right associativity) : go_scope.
Notation "m ;; k" := (bind m (fun _ => k))
  (at level 61, right associativity) : go_scope.
Notation "' p <- m ;; k" := (bind m (fun p => k))
  (at level 61, p pattern, m at next level, right associativity) : go_scope.
Open Scope go_scope.

Definition panic {A} : M A := fun _ => Panic.

Definition getConf : M evictSlowTrendSchedulerConfig :=
  fun w => Ok (conf w, w).

Definition setConf (c : evictSlowTrendSchedulerConfig) : M unit :=
  fun w => Ok (tt, {| conf := c; now := now w; persistFail := persistFail w;
                      trace := trace w |}).

Definition emit (e : Event) : M unit :=
  fun w => Ok (tt, {| conf := conf w; now := now w;
                      persistFail := persistFail w;
                      trace := trace w ++ [e] |}).

(** [time.Now()] *)
Definition time_Now : M Time := fun w => Ok (now w, w).

Definition failpoint_persistFail : M bool := fun w => Ok (persistFail w, w).

(** Reading a field through a [*core.StoreInfo]. *)
Definition deref (p : option StoreInfo) : M StoreInfo :=
  match p with
  | Some s => ret s
  | None => panic
  end.

(** Get the duration gap since the given startTS, unit: s. *)
Definition DurationSinceAsSecs (startTS : Time) : M Z :=
  t <- time_Now ;;
  ret (SecondsAsUint64 (Sub t startTS)).

(** Modelled from the spec: [EncodeConfig] is defined outside this file; the
    persisted format is "a single JSON-like object
    { evict-by-trend-stores: [<uint64>] }", which the list of evicted stores
    stands for.  Encoding it does not fail. *)
Definition EncodeConfig (c : evictSlowTrendSchedulerConfig) : list Z * error :=
  (EvictedStores c, None).

(** ** Methods of the configuration *)

Module Conf.

Definition getSchedulerName : M string := ret EvictSlowTrendName.

Definition Persist : M error :=
  name <- getSchedulerName ;;
  c <- getConf ;;
  let '(data, err) := EncodeConfig c in
  inject <- failpoint_persistFail ;;
  let err := if inject then Some "fail to persist"%string else err in
  match err with
  | Some e => ret (Some e)
  | None =>
      emit (StorageSave name data) ;;
      ret (SaveScheduleConfig (storage c) name data)
  end.

Definition getStores : M (list Z) :=
  c <- getConf ;; ret (EvictedStores c).

Definition evictedStore : M Z :=
  c <- getConf ;;
  match EvictedStores c with
  | [] => ret 0
  | id :: _ => ret id
  end.

Definition candidate : M Z :=
  c <- getConf ;; ret (slowCandidate.storeID (evictCandidate c)).

Definition captureTS : M Time :=
  c <- getConf ;; ret (slowCandidate.captureTS (evictCandidate c)).

Definition candidateCapturedSecs : M Z :=
  c <- getConf ;;
  DurationSinceAsSecs (slowCandidate.captureTS (evictCandidate c)).

Definition captureCandidate (id : Z) : M unit :=
  t <- time_Now ;;
  c <- getConf ;;
  setConf (with_evictCandidate (slowCandidate.mk id t) c) ;;
  c <- getConf ;;
  if slowCandidate.eqb (lastEvictCandidate c) slowCandidate.empty
  then setConf (with_lastEvictCandidate (evictCandidate c) c)
  else ret tt.

Definition popCandidate : M Z :=
  c <- getConf ;;
  let id := slowCandidate.storeID (evictCandidate c) in
  setConf (with_lastEvictCandidate (evictCandidate c) c) ;;
  c <- getConf ;;
  setConf (with_evictCandidate slowCandidate.empty c) ;;
  ret id.

Definition setStoreAndPersist (id : Z) : M error :=
  c <- getConf ;;
  setConf (with_EvictedStores [id] c) ;;
  Persist.

Definition clearAndPersist (cluster : SchedulerCluster) : M (Z * error) :=
  oldID <- evictedStore ;;
  if oldID =? 0 then ret (oldID, None)
  else
    let address :=
      match GetStore cluster oldID with
      | Some store => GetAddress store
      | None => "?"%string
      end in
    emit (EvictedStatusGaugeSet address oldID 0) ;;
    c <- getConf ;;
    setConf (with_EvictedStores [] c) ;;
    err <- Persist ;;
    ret (oldID, err).

End Conf.

(** ** Methods of the scheduler *)

(** Modelled from the spec: the leader-eviction request
    ([scheduleEvictLeaderBatch], defined outside this file, "delegates actual
    leader-transfer mechanics"): what [Schedule] returns is either no
    operator or the request built for the stores of the configuration. *)
Inductive Operators : Type :=
| NoOperators
| EvictLeaderBatch (name typ : string) (stores : list Z).

Definition scheduleEvictLeaderBatch (name typ : string)
    (cluster : SchedulerCluster) : M Operators :=
  stores <- Conf.getStores ;;
  ret (EvictLeaderBatch name typ stores).

Definition GetName : string := EvictSlowTrendName.
Definition GetType : string := EvictSlowTrendType.

(** [cluster.SlowTrendEvicted(id)] *)
Definition SlowTrendEvicted (cluster : SchedulerCluster) (id : Z) : M error :=
  emit (NotifyEvicted id) ;;
  ret (SlowTrendEvictedResult cluster id).

(** [cluster.SlowTrendRecovered(id)] *)
Definition SlowTrendRecovered (cluster : SchedulerCluster) (id : Z) : M unit :=
  emit (NotifyRecovered id).

Definition Prepare (cluster : SchedulerCluster) : M error :=
  evictedStoreID <- Conf.evictedStore ;;
  if evictedStoreID =? 0 then ret None
  else SlowTrendEvicted cluster evictedStoreID.

Definition prepareEvictLeader (cluster : SchedulerCluster) (storeID : Z)
    : M error :=
  err <- Conf.setStoreAndPersist storeID ;;
  match err with
  | Some e =>
      emit (LogInfo "evict-slow-trend-scheduler persist config failed" storeID) ;;
      ret (Some e)
  | None => SlowTrendEvicted cluster storeID
  end.

Definition cleanupEvictLeader (cluster : SchedulerCluster) : M unit :=
  '(evictedStoreID, err) <- Conf.clearAndPersist cluster ;;
  match err with
   | Some _ =>
       emit (LogInfo "evict-slow-trend-scheduler persist config failed"
                     evictedStoreID)
   | None => ret tt
   end ;;
  if negb (evictedStoreID =? 0)
  then SlowTrendRecovered cluster evictedStoreID
  else ret tt.

Definition Cleanup (cluster : SchedulerCluster) : M unit :=
  cleanupEvictLeader cluster.

Definition scheduleEvictLeader (cluster : SchedulerCluster) : M Operators :=
  id <- Conf.evictedStore ;;
  match GetStore cluster id with
  | None => ret NoOperators
  | Some store =>
      emit (EvictedStatusGaugeSet (GetAddress store) (GetID store) 1) ;;
      scheduleEvictLeaderBatch GetName GetType cluster
  end.

(** ** The confirmation checks *)

(** [len(stores)] *)
Definition len {A} (l : list A) : Z := Z.of_nat (List.length l).

(** A store the detection and confirmation arithmetic looks at: the two
    [continue] guards that open every loop over the stores. *)
Definition eligible (store : StoreInfo) : bool :=
  negb (IsRemoved store) && (IsPreparing store || IsServing store).

Definition checkStoresAreUpdated (cluster : SchedulerCluster)
    (slowStoreID : Z) (slowStoreRecordTS : Time) : M bool :=
  let stores := GetStores cluster in
  if len stores <=? 1 then ret false
  else
    let expected := (len stores + 1) / 2 in
    let updatedStores :=
      fold_left
        (fun updatedStores store =>
           if IsRemoved store then updatedStores + 1
           else if negb (IsPreparing store || IsServing store)
           then updatedStores + 1
           else if GetID store =? slowStoreID then updatedStores + 1
           else if notAfter slowStoreRecordTS (GetLastHeartbeatTS store)
           then updatedStores + 1
           else updatedStores)
        stores 0 in
    emit (MiscGaugeSet "stores.check-updated:count" updatedStores) ;;
    emit (MiscGaugeSet "stores.check-updated:expected" expected) ;;
    ret (expected <=? updatedStores).

Definition checkStoreSlowerThanOthers (cluster : SchedulerCluster)
    (target : option StoreInfo) : M bool :=
  let stores := GetStores cluster in
  let expected := (len stores * 2 + 1) / 3 in
  tgt <- deref target ;;
  match GetSlowTrend tgt with
  | None =>
      emit (ActionStatusInc "cand.check-slower:no-data") ;;
      ret false
  | Some targetSlowTrend =>
      let slowerThanStoresNum :=
        fold_left
          (fun slowerThanStoresNum store =>
             if IsRemoved store then slowerThanStoresNum
             else if negb (IsPreparing store || IsServing store)
             then slowerThanStoresNum
             else if GetID store =? GetID tgt then slowerThanStoresNum
             else
               match GetSlowTrend store with
               | Some slowTrend =>
                   (* Greater CauseValue means slower *)
                   if Float64.gt (PrimFloat.sub (CauseValue targetSlowTrend)
                                                (CauseValue slowTrend))
                                 alterEpsilon
                      && Float64.gt (CauseValue slowTrend) alterEpsilon
                   then slowerThanStoresNum + 1
                   else slowerThanStoresNum
               | None => slowerThanStoresNum
               end)
          stores 0 in
      emit (MiscGaugeSet "store.check-slower:count" slowerThanStoresNum) ;;
      emit (MiscGaugeSet "store.check-slower:expected" expected) ;;
      ret (expected <=? slowerThanStoresNum)
  end.

Definition checkStoreFasterThanOthers (cluster : SchedulerCluster)
    (target : option StoreInfo) : M bool :=
  let stores := GetStores cluster in
  let expected := (len stores + 1) / 2 in
  tgt <- deref target ;;
  match GetSlowTrend tgt with
  | None =>
      emit (ActionStatusInc "cand.check-faster:no-data") ;;
      ret false
  | Some targetSlowTrend =>
      let fasterThanStores :=
        fold_left
          (fun fasterThanStores store =>
             if IsRemoved store then fasterThanStores
             else if negb (IsPreparing store || IsServing store)
             then fasterThanStores
             else if GetID store =? GetID tgt then fasterThanStores
             else
               match GetSlowTrend store with
               | Some slowTrend =>
                   (* Greater CauseValue means slower *)
                   if Float64.le (CauseValue targetSlowTrend)
                                 (PrimFloat.mul (CauseValue slowTrend)
                                                onePointOne)
                      && Float64.gt (CauseValue slowTrend) alterEpsilon
                      && Float64.gt (CauseValue targetSlowTrend) alterEpsilon
                   then fasterThanStores + 1
                   else fasterThanStores
               | None => fasterThanStores
               end)
          stores 0 in
      emit (MiscGaugeSet "store.check-faster:count" fasterThanStores) ;;
      emit (MiscGaugeSet "store.check-faster:expected" expected) ;;
      ret (expected <=? fasterThanStores)
  end.

Definition checkStoreReadyForRecover (cluster : SchedulerCluster)
    (target : option StoreInfo) (recoveryGap : Z) : M bool :=
  tgt <- deref target ;;
  match GetSlowTrend tgt with
  | Some _ => ret (defaultRecoveryDurationGap <=? recoveryGap)
  | None => ret true
  end.

Definition checkStoreCanRecover (cluster : SchedulerCluster)
    (target : option StoreInfo) (recoveryGap : Z) : M bool :=
  faster <- checkStoreFasterThanOthers cluster target ;;
  if faster then checkStoreReadyForRecover cluster target recoveryGap
  else ret false.

(** ** The candidate detector *)

(** A [for ... range] loop whose body runs in the monad. *)
Fixpoint forRange {A S} (body : S -> A -> M S) (l : list A) (s : S) : M S :=
  match l with
  | [] => ret s
  | a :: l' => s' <- body s a ;; forRange body l' s'
  end.

(** [int(float64(len(stores)) * ratio)] *)
Definition affectedStoreThreshold (cluster : SchedulerCluster) : Z :=
  Float64.to_int
    (PrimFloat.mul (Float64.of_int (len (GetStores cluster)))
                   (GetSlowStoreEvictingAffectedStoreRatioThreshold cluster)).

(** The body of the loop over the stores: the state is the pair of
    [candidates] and [affectedStoreCount]. *)
Definition chooseEvictCandidate_body (isRaftKV2 : bool)
    (lastEvictCandidate : slowCandidate.t)
    (acc : list StoreInfo * Z) (store : StoreInfo) : M (list StoreInfo * Z) :=
  let '(candidates, affectedStoreCount) := acc in
  if IsRemoved store then ret acc
  else if negb (IsPreparing store || IsServing store) then ret acc
  else
    match GetSlowTrend store with
    | None => ret acc
    | Some slowTrend =>
        let affectedStoreCount :=
          if Float64.lt (ResultRate slowTrend) (PrimFloat.opp alterEpsilon)
          then affectedStoreCount + 1 else affectedStoreCount in
        (* For the cases of disk io jitters. *)
        if Float64.gt (CauseRate slowTrend) alterEpsilon
           && Float64.lt (ResultRate slowTrend) (PrimFloat.opp alterEpsilon)
        then
          emit (ActionStatusInc "cand.add") ;;
          emit (LogInfo "evict-slow-trend-scheduler pre-captured candidate"
                        (GetID store)) ;;
          ret (candidates ++ [store], affectedStoreCount)
        else if isRaftKV2 && Float64.gt (CauseRate slowTrend) alterEpsilon
        then
          if negb (slowCandidate.eqb lastEvictCandidate slowCandidate.empty)
             && (slowCandidate.storeID lastEvictCandidate =? GetID store)
          then
            secs <- DurationSinceAsSecs
                      (slowCandidate.captureTS lastEvictCandidate) ;;
            if secs <=? minReCheckDurationGap
            then
              emit (ActionStatusInc "cand.add") ;;
              emit (LogInfo "[Debugging] evict-slow-trend-scheduler pre-captured candidate for raft-kv2"
                            (GetID store)) ;;
              ret (candidates ++ [store], affectedStoreCount)
            else ret (candidates, affectedStoreCount)
          else ret (candidates, affectedStoreCount)
        else ret (candidates, affectedStoreCount)
    end.

Definition chooseEvictCandidate (cluster : SchedulerCluster)
    (lastEvictCandidate : slowCandidate.t) : M (option StoreInfo) :=
  let isRaftKV2 := IsRaftKV2 cluster in
  let stores := GetStores cluster in
  if len stores <? 3 then
    emit (ActionStatusInc "cand.none:too-few") ;;
    ret None
  else
    '(candidates, affectedStoreCount) <-
       forRange (chooseEvictCandidate_body isRaftKV2 lastEvictCandidate)
                stores ([], 0) ;;
    if len candidates =? 0 then
      emit (ActionStatusInc "cand.none:no-fit") ;;
      ret None
    else if 1 <? len candidates then
      emit (ActionStatusInc "cand.none:too-many") ;;
      ret None
    else
      store <- deref (nth_error candidates 0) ;;
      if affectedStoreCount <? affectedStoreThreshold cluster then
        emit (LogInfo "evict-slow-trend-scheduler failed to confirm candidate: it only affect a few stores"
                      (GetID store)) ;;
        emit (ActionStatusInc "cand.none:affect-a-few") ;;
        ret None
      else
        slower <- checkStoreSlowerThanOthers cluster (Some store) ;;
        if negb slower then
          emit (LogInfo "evict-slow-trend-scheduler failed to confirm candidate: it's not slower than others"
                        (GetID store)) ;;
          emit (ActionStatusInc "cand.none:not-slower") ;;
          ret None
        else
          emit (ActionStatusInc "cand.add") ;;
          emit (LogInfo "evict-slow-trend-scheduler captured candidate"
                        (GetID store)) ;;
          ret (Some store).

(** ** The scheduling decision loop *)

(** One tick.  The second result of the source, the plans, is always nil and
    is left out; [dryRun] is not read by the source. *)
Definition Schedule (cluster : SchedulerCluster) (dryRun : bool)
    : M Operators :=
  emit (SchedulerCounterInc GetName "schedule") ;;
  let ops := NoOperators in
  evicted <- Conf.evictedStore ;;
  if negb (evicted =? 0) then
    id <- Conf.evictedStore ;;
    let store := GetStore cluster id in
    let gone := match store with
                | None => true
                | Some s => IsRemoved s
                end in
    if gone then
      (* Previous slow store had been removed, remove the scheduler and
         check slow node next time. *)
      s <- deref store ;;
      emit (LogInfo "store evicted by slow trend has been removed" (GetID s)) ;;
      emit (ActionStatusInc "evict.stop:removed") ;;
      cleanupEvictLeader cluster ;;
      ret ops
    else
      secs <- Conf.candidateCapturedSecs ;;
      recover <- checkStoreCanRecover cluster store secs ;;
      if recover then
        s <- deref store ;;
        emit (LogInfo "store evicted by slow trend has been recovered"
                      (GetID s)) ;;
        emit (ActionStatusInc "evict.stop:recovered") ;;
        cleanupEvictLeader cluster ;;
        ret ops
      else
        emit (ActionStatusInc "evict.continue") ;;
        scheduleEvictLeader cluster
  else
    candFreshCaptured <-
      (cand <- Conf.candidate ;;
       if cand =? 0 then
         candidate <- (c <- getConf ;;
                       chooseEvictCandidate cluster (lastEvictCandidate c)) ;;
         match candidate with
         | Some store =>
             emit (ActionStatusInc "cand.captured") ;;
             Conf.captureCandidate (GetID store) ;;
             ret true
         | None => ret false
         end
       else
         emit (ActionStatusInc "cand.continue") ;;
         ret false) ;;
    slowStoreID <- Conf.candidate ;;
    if slowStoreID =? 0 then
      emit (ActionStatusInc "cand.none") ;;
      ret ops
    else
      let slowStore := GetStore cluster slowStoreID in
      cancel <- (if negb candFreshCaptured
                 then checkStoreFasterThanOthers cluster slowStore
                 else ret false) ;;
      if cancel then
        Conf.popCandidate ;;
        emit (LogInfo "slow store candidate by trend has been cancel"
                      slowStoreID) ;;
        emit (ActionStatusInc "cand.cancel:too-faster") ;;
        ret ops
      else
        slowStoreRecordTS <- Conf.captureTS ;;
        updated <- checkStoresAreUpdated cluster slowStoreID slowStoreRecordTS ;;
        if negb updated then
          emit (LogInfo "slow store candidate waiting for other stores to update heartbeats"
                        slowStoreID) ;;
          emit (ActionStatusInc "cand.wait") ;;
          ret ops
        else
          candCapturedSecs <- Conf.candidateCapturedSecs ;;
          emit (LogInfo "detected slow store by trend, start to evict leaders"
                        slowStoreID) ;;
          emit (MiscGaugeSet "cand.captured.secs" candCapturedSecs) ;;
          popped <- Conf.popCandidate ;;
          err <- prepareEvictLeader cluster popped ;;
          match err with
          | Some _ =>
              emit (LogInfo "prepare for evicting leader by slow trend failed"
                            slowStoreID) ;;
              emit (ActionStatusInc "evict.prepare.err") ;;
              ret ops
          | None =>
              emit (ActionStatusInc "evict.start") ;;
              scheduleEvictLeader cluster
          end.

(** ** Observing a call *)

(** The value a call returns, if it returns. *)
Definition eval {A} (m : M A) (w : World) : option A :=
  match m w with
  | Ok (a, _) => Some a
  | Panic => None
  end.

(** The world a call leaves, if it returns. *)
Definition exec {A} (m : M A) (w : World) : option World :=
  match m w with
  | Ok (_, w') => Some w'
  | Panic => None
  end.

(** The world after the events [tr] were sent and nothing else changed. *)
Definition sent (tr : list Event) (w : World) : World :=
  {| conf := conf w; now := now w; persistFail := persistFail w;
     trace := trace w ++ tr |}.

(** The call returns [v], having sent events and changed nothing else. *)
Definition returns {A} (m : M A) (w : World) (v : A) : Prop :=
  exists tr, m w = Ok (v, sent tr w).

(** Whenever the call returns, its value and the world it leaves satisfy
    [Q]. *)
Definition post {A} (m : M A) (w : World) (Q : A -> World -> Prop) : Prop :=
  match m w with
  | Ok (a, w') => Q a w'
  | Panic => True
  end.

(** The world at the start of the next call: the configuration is kept, the
    clock reads [t]. *)
Definition at_time (t : Time) (w : World) : World :=
  {| conf := conf w; now := t; persistFail := persistFail w;
     trace := trace w |}.

(** ** The vocabulary of the specification *)

(** [ceil(n/2)] and [floor(n*2/3)]. *)
Definition ceil_half (n : Z) : Z := (n + 1) / 2.
Definition floor_two_thirds (n : Z) : Z := (n * 2) / 3.

(** The cluster's node count, and the number of its eligible nodes. *)
Definition total (cluster : SchedulerCluster) : Z := len (GetStores cluster).
Definition eligibleCount (cluster : SchedulerCluster) : Z :=
  len (filter eligible (GetStores cluster)).

(** "Other eligible nodes where target.causeValue - other.causeValue >
    epsilon and other.causeValue > epsilon". *)
Definition slowerThan (tgt : StoreInfo) (targetSlowTrend : SlowTrend)
    (other : StoreInfo) : bool :=
  eligible other && negb (GetID other =? GetID tgt) &&
  match GetSlowTrend other with
  | Some slowTrend =>
      Float64.gt (PrimFloat.sub (CauseValue targetSlowTrend)
                                (CauseValue slowTrend)) alterEpsilon
      && Float64.gt (CauseValue slowTrend) alterEpsilon
  | None => false
  end.

Definition slowerThanCount (cluster : SchedulerCluster) (tgt : StoreInfo)
    (targetSlowTrend : SlowTrend) : Z :=
  len (filter (slowerThan tgt targetSlowTrend) (GetStores cluster)).

(** "Other eligible nodes where target.causeValue <= other.causeValue * 1.1
    and other.causeValue > epsilon and target.causeValue > epsilon". *)
Definition fasterThan (tgt : StoreInfo) (targetSlowTrend : SlowTrend)
    (other : StoreInfo) : bool :=
  eligible other && negb (GetID other =? GetID tgt) &&
  match GetSlowTrend other with
  | Some slowTrend =>
      Float64.le (CauseValue targetSlowTrend)
                 (PrimFloat.mul (CauseValue slowTrend) onePointOne)
      && Float64.gt (CauseValue slowTrend) alterEpsilon
      && Float64.gt (CauseValue targetSlowTrend) alterEpsilon
  | None => false
  end.

Definition fasterThanCount (cluster : SchedulerCluster) (tgt : StoreInfo)
    (targetSlowTrend : SlowTrend) : Z :=
  len (filter (fasterThan tgt targetSlowTrend) (GetStores cluster)).

(** "Eligible nodes whose last heartbeat is at or after sinceTS, plus all
    ineligible and target nodes". *)
Definition updatedSince (targetID : Z) (sinceTS : Time) (store : StoreInfo)
    : bool :=
  negb (eligible store) || (GetID store =? targetID)
  || (sinceTS <=? GetLastHeartbeatTS store).

Definition updatedCount (cluster : SchedulerCluster) (targetID : Z)
    (sinceTS : Time) : Z :=
  len (filter (updatedSince targetID sinceTS) (GetStores cluster)).

(** "Eligible nodes with resultRate < -epsilon". *)
Definition affected (store : StoreInfo) : bool :=
  eligible store &&
  match GetSlowTrend store with
  | Some slowTrend =>
      Float64.lt (ResultRate slowTrend) (PrimFloat.opp alterEpsilon)
  | None => false
  end.

Definition affectedCount (cluster : SchedulerCluster) : Z :=
  len (filter affected (GetStores cluster)).

(** The primary and the secondary match of the detector, the latter for a
    clock that reads [t]. *)
Definition primaryMatch (slowTrend : SlowTrend) : bool :=
  Float64.gt (CauseRate slowTrend) alterEpsilon
  && Float64.lt (ResultRate slowTrend) (PrimFloat.opp alterEpsilon).

Definition secondaryMatch (isRaftKV2 : bool) (last : slowCandidate.t)
    (t : Time) (store : StoreInfo) (slowTrend : SlowTrend) : bool :=
  isRaftKV2 && Float64.gt (CauseRate slowTrend) alterEpsilon
  && (negb (slowCandidate.eqb last slowCandidate.empty)
      && (slowCandidate.storeID last =? GetID store))
  && (SecondsAsUint64 (Sub t (slowCandidate.captureTS last))
      <=? minReCheckDurationGap).

Definition collected (isRaftKV2 : bool) (last : slowCandidate.t) (t : Time)
    (store : StoreInfo) : bool :=
  eligible store &&
  match GetSlowTrend store with
  | Some slowTrend =>
      primaryMatch slowTrend || secondaryMatch isRaftKV2 last t store slowTrend
  | None => false
  end.

(** The candidates the detector collects from a snapshot. *)
Definition candidatesOf (cluster : SchedulerCluster) (last : slowCandidate.t)
    (t : Time) : list StoreInfo :=
  filter (collected (IsRaftKV2 cluster) last t) (GetStores cluster).

(** The outcome of the "slower than others" confirmation of a store. *)
Definition slowerThanOthers (cluster : SchedulerCluster) (store : StoreInfo)
    : bool :=
  match GetSlowTrend store with
  | Some t => (total cluster * 2 + 1) / 3 <=? slowerThanCount cluster store t
  | None => false
  end.

(** The detector as a function of the snapshot, the last candidate and the
    clock: the steps of its algorithm, one after the other. *)
Definition detected (cluster : SchedulerCluster) (last : slowCandidate.t)
    (t : Time) : option StoreInfo :=
  if total cluster <? 3 then None
  else
    match candidatesOf cluster last t with
    | [store] =>
        if affectedCount cluster <? affectedStoreThreshold cluster then None
        else if slowerThanOthers cluster store then Some store
        else None
    | _ => None
    end.

(** [evictedStore()] of a configuration. *)
Definition evictedStoreOf (c : evictSlowTrendSchedulerConfig) : Z :=
  hd 0 (EvictedStores c).

(** A promoted store has left the candidate slot: what every call of
    [Schedule] keeps true. *)
Definition candidateClearedWhenEvicting (c : evictSlowTrendSchedulerConfig)
    : Prop :=
  evictedStoreOf c <> 0 -> evictCandidate c = slowCandidate.empty.

(** The worlds in which a tick can start: the scheduler is installed with
    the persisted list of evicted stores and empty candidate slots, and every
    tick that returns hands its configuration over to the next one, which
    runs at some later reading [t] of the clock. *)
Inductive reachable : World -> Prop :=
| reachable_installed (st : ConfigStorage) (evicted : list Z) (t : Time)
    (inject : bool) :
    reachable
      {| conf := {| storage := st; evictCandidate := slowCandidate.empty;
                    lastEvictCandidate := slowCandidate.empty;
                    EvictedStores := evicted |};
         now := t; persistFail := inject; trace := [] |}
| reachable_tick (w : World) (cluster : SchedulerCluster) (dryRun : bool)
    (ops : Operators) (w' : World) (t : Time) :
    reachable w ->
    Schedule cluster dryRun w = Ok (ops, w') ->
    reachable (at_time t w').

(** ** Concrete snapshots and configurations *)

Module Samples.

(** The affected-store ratio [0.3], as a binary64 value. *)
Definition ratio : float := 0x1.3333333333333p-2%float.

Definition trendOf (causeValue causeRate resultRate : float)
    : option SlowTrend :=
  Some {| CauseValue := causeValue; CauseRate := causeRate;
          ResultValue := 0%float; ResultRate := resultRate |}.

(** A jittering store, a healthy one, and one whose result alone
    degrades. *)
Definition jitterTrend : SlowTrend :=
  {| CauseValue := 5; CauseRate := 1; ResultValue := 0; ResultRate := -1 |}.
Definition jitter : option SlowTrend := Some jitterTrend.
Definition healthy : option SlowTrend := trendOf 1 0 0.
Definition degrading : option SlowTrend := trendOf 1 0 (-1).

Definition storeOf (id : Z) (state : NodeState) (trend : option SlowTrend)
    (heartbeat : Time) : StoreInfo :=
  {| GetID := id; GetAddress := "tikv"; GetNodeState := state;
     GetSlowTrend := trend; GetLastHeartbeatTS := heartbeat |}.

Definition clusterOf (stores : list StoreInfo) : SchedulerCluster :=
  {| GetStores := stores; IsRaftKV2 := false;
     GetSlowStoreEvictingAffectedStoreRatioThreshold := ratio;
     SlowTrendEvictedResult := fun _ => None |}.

Definition goodStorage : ConfigStorage :=
  {| SaveScheduleConfig := fun _ _ => None |}.
Definition brokenStorage : ConfigStorage :=
  {| SaveScheduleConfig := fun _ _ => Some "storage unavailable"%string |}.

Definition confOf (st : ConfigStorage) (cand last : slowCandidate.t)
    (evicted : list Z) : evictSlowTrendSchedulerConfig :=
  {| storage := st; evictCandidate := cand; lastEvictCandidate := last;
     EvictedStores := evicted |}.

Definition worldOf (c : evictSlowTrendSchedulerConfig) (t : Time) : World :=
  {| conf := c; now := t; persistFail := false; trace := [] |}.

(** Some instant of the year 2023, in nanoseconds since the zero Time. *)
Definition t0 : Time := 63800000000 * Second.

(** A scheduler just installed, nothing evicted, no candidate. *)
Definition idle : World :=
  worldOf (confOf goodStorage slowCandidate.empty slowCandidate.empty []) t0.

(** A store that reports no trend signal. *)
Definition silentStore : StoreInfo := storeOf 1 Serving None t0.

(** Four serving stores: store 1 is slow, two peers are clearly faster,
    one peer reports no trend. *)
Definition slowStore : StoreInfo := storeOf 1 Serving jitter t0.
Definition fourStores : SchedulerCluster :=
  clusterOf [slowStore; storeOf 2 Serving healthy t0;
             storeOf 3 Serving healthy t0; storeOf 4 Serving None t0].

(** A cluster reduced to the candidate itself. *)
Definition oneStore : SchedulerCluster := clusterOf [slowStore].

(** Three stores of which one is a tombstone: two eligible nodes. *)
Definition twoEligible : SchedulerCluster :=
  clusterOf [slowStore; storeOf 2 Serving healthy t0;
             storeOf 3 Removed healthy t0].

(** Ten stores, nine of them eligible: store 1 jitters, store 2 degrades,
    store 10 is a tombstone. *)
Definition tenStores : SchedulerCluster :=
  clusterOf [slowStore; storeOf 2 Serving degrading t0;
             storeOf 3 Serving healthy t0; storeOf 4 Serving healthy t0;
             storeOf 5 Serving healthy t0; storeOf 6 Serving healthy t0;
             storeOf 7 Serving healthy t0; storeOf 8 Serving healthy t0;
             storeOf 9 Serving healthy t0; storeOf 10 Removed None t0].

(** The five-node scenario: store 1 with the trend [trend1], four healthy
    peers, every store heard at [heartbeat]. *)
Definition fiveStores (trend1 : option SlowTrend) (heartbeat : Time)
    : SchedulerCluster :=
  clusterOf [storeOf 1 Serving trend1 heartbeat;
             storeOf 2 Serving healthy heartbeat;
             storeOf 3 Serving healthy heartbeat;
             storeOf 4 Serving healthy heartbeat;
             storeOf 5 Serving healthy heartbeat].

(** Store 1 is recorded as evicted; the cluster has stores 2, 3 and 4 only
    (store 1 was deleted), or still has store 1 as a tombstone. *)
Definition evicting1 (st : ConfigStorage) : World :=
  worldOf (confOf st slowCandidate.empty (slowCandidate.mk 1 t0) [1])
          (t0 + 700 * Second).
Definition store1Deleted : SchedulerCluster :=
  clusterOf [storeOf 2 Serving healthy t0; storeOf 3 Serving healthy t0;
             storeOf 4 Serving healthy t0].
Definition store1Tombstone : SchedulerCluster :=
  clusterOf [storeOf 1 Removed None t0; storeOf 2 Serving healthy t0;
             storeOf 3 Serving healthy t0].

(** The run of the scheduler on the five-node scenario: store 1 is
    captured at [t0], promoted ten seconds later once every peer has been
    heard again, and back to its peers' speed 490 seconds after that. *)
Definition captured : option World :=
  exec (Schedule (fiveStores jitter (t0 - Second)) false) idle.
Definition promoted : option World :=
  match captured with
  | Some w =>
      exec (Schedule (fiveStores jitter (t0 + Second)) false)
           (worldOf (conf w) (t0 + 10 * Second))
  | None => None
  end.

(** The world 490 seconds after the promotion, as the promotion left it. *)
Definition evictingFor490s : World :=
  worldOf (confOf goodStorage slowCandidate.empty (slowCandidate.mk 1 t0) [1])
          (t0 + 500 * Second).

End Samples.

(** ** The tick, piece by piece *)

(** A world with another configuration. *)
Definition withConf (c : evictSlowTrendSchedulerConfig) (w : World) : World :=
  {| conf := c; now := now w; persistFail := persistFail w;
     trace := trace w |}.

(** The configuration [captureCandidate id] leaves when the clock reads
    [t]. *)
Definition capturedConf (id : Z) (t : Time)
    (c : evictSlowTrendSchedulerConfig) : evictSlowTrendSchedulerConfig :=
  let c1 := with_evictCandidate (slowCandidate.mk id t) c in
  if slowCandidate.eqb (lastEvictCandidate c1) slowCandidate.empty
  then with_lastEvictCandidate (evictCandidate c1) c1
  else c1.

(** The configuration [popCandidate] leaves. *)
Definition poppedConf (c : evictSlowTrendSchedulerConfig)
    : evictSlowTrendSchedulerConfig :=
  with_evictCandidate slowCandidate.empty
    (with_lastEvictCandidate (evictCandidate c) c).

(** The configuration a promotion leaves: the candidate is popped and
    recorded as the evicted store. *)
Definition promotedConf (c : evictSlowTrendSchedulerConfig)
    : evictSlowTrendSchedulerConfig :=
  with_EvictedStores [slowCandidate.storeID (evictCandidate c)]
    (poppedConf c).

(** The outcome of the "faster than others" confirmation of a store. *)
Definition fasterThanOthers (cluster : SchedulerCluster) (store : StoreInfo)
    : bool :=
  match GetSlowTrend store with
  | Some t => ceil_half (total cluster) <=? fasterThanCount cluster store t
  | None => false
  end.

(** The outcome of the freshness check. *)
Definition storesAreUpdated (cluster : SchedulerCluster) (slowStoreID : Z)
    (slowStoreRecordTS : Time) : bool :=
  negb (total cluster <=? 1)
  && (ceil_half (total cluster)
      <=? updatedCount cluster slowStoreID slowStoreRecordTS).


(** The call returns, and its value and the world it leaves satisfy [Q]. *)
Definition wp {A} (m : M A) (w : World) (Q : A -> World -> Prop) : Prop :=
  match m w with
  | Ok (a, w') => Q a w'
  | Panic => False
  end.

(** [Schedule] on a configuration without evicted store, cut in four at
    its [return]s: the capture of a candidate, the cancellation of a pending
    one, the wait for fresh heartbeats, and the promotion.  That [Schedule]
    is these four run one after the other is [Schedule_without_eviction]
    below. *)

(** The first block: is a candidate captured by this very tick? *)
Definition captureBlock (cluster : SchedulerCluster) : M bool :=
  cand <- Conf.candidate ;;
  if cand =? 0 then
    candidate <- (c <- getConf ;;
                  chooseEvictCandidate cluster (lastEvictCandidate c)) ;;
    match candidate with
    | Some store =>
        emit (ActionStatusInc "cand.captured") ;;
        Conf.captureCandidate (GetID store) ;;
        ret true
    | None => ret false
    end
  else
    emit (ActionStatusInc "cand.continue") ;;
    ret false.

(** The last block: the candidate is popped and its eviction prepared. *)
Definition promoteCandidate (cluster : SchedulerCluster) (slowStoreID : Z)
    : M Operators :=
  candCapturedSecs <- Conf.candidateCapturedSecs ;;
  emit (LogInfo "detected slow store by trend, start to evict leaders"
                slowStoreID) ;;
  emit (MiscGaugeSet "cand.captured.secs" candCapturedSecs) ;;
  popped <- Conf.popCandidate ;;
  err <- prepareEvictLeader cluster popped ;;
  match err with
  | Some _ =>
      emit (LogInfo "prepare for evicting leader by slow trend failed"
                    slowStoreID) ;;
      emit (ActionStatusInc "evict.prepare.err") ;;
      ret NoOperators
  | None =>
      emit (ActionStatusInc "evict.start") ;;
      scheduleEvictLeader cluster
  end.

(** The third block: wait until the other stores have been heard again. *)
Definition confirmCandidate (cluster : SchedulerCluster) (slowStoreID : Z)
    : M Operators :=
  slowStoreRecordTS <- Conf.captureTS ;;
  updated <- checkStoresAreUpdated cluster slowStoreID slowStoreRecordTS ;;
  if negb updated then
    emit (LogInfo "slow store candidate waiting for other stores to update heartbeats"
                  slowStoreID) ;;
    emit (ActionStatusInc "cand.wait") ;;
    ret NoOperators
  else promoteCandidate cluster slowStoreID.

(** The second block: a candidate that was pending and is no slower than
    the others any more is dropped. *)
Definition handleCandidate (cluster : SchedulerCluster) (slowStoreID : Z)
    (candFreshCaptured : bool) : M Operators :=
  let slowStore := GetStore cluster slowStoreID in
  cancel <- (if negb candFreshCaptured
             then checkStoreFasterThanOthers cluster slowStore
             else ret false) ;;
  if cancel then
    Conf.popCandidate ;;
    emit (LogInfo "slow store candidate by trend has been cancel"
                  slowStoreID) ;;
    emit (ActionStatusInc "cand.cancel:too-faster") ;;
    ret NoOperators
  else confirmCandidate cluster slowStoreID.

(** ** More snapshots and configurations *)

Module Scenes.

(** Store 1 is a pending candidate, captured at [t0]; the clock reads ten
    seconds later. *)
Definition pending (st : ConfigStorage) : World :=
  Samples.worldOf
    (Samples.confOf st (slowCandidate.mk 1 Samples.t0)
                    (slowCandidate.mk 1 Samples.t0) [])
    (Samples.t0 + 10 * Second).

(** The five stores with store 1 still slow, heard before or after the
    capture, and with store 1 back to its peers' speed. *)
Definition stale : SchedulerCluster :=
  Samples.fiveStores Samples.jitter (Samples.t0 - Second).
Definition fresh : SchedulerCluster :=
  Samples.fiveStores Samples.jitter (Samples.t0 + Second).
Definition recovered : SchedulerCluster :=
  Samples.fiveStores Samples.healthy (Samples.t0 + Second).


(** Five stores of which two jitter. *)
Definition twoJitter : SchedulerCluster :=
  Samples.clusterOf
    [Samples.storeOf 1 Serving Samples.jitter Samples.t0;
     Samples.storeOf 2 Serving Samples.jitter Samples.t0;
     Samples.storeOf 3 Serving Samples.healthy Samples.t0;
     Samples.storeOf 4 Serving Samples.healthy Samples.t0;
     Samples.storeOf 5 Serving Samples.healthy Samples.t0].

(** A store at rest: its cause value is zero. *)
Definition atRest : SlowTrend :=
  {| CauseValue := 0; CauseRate := 0; ResultValue := 0; ResultRate := 0 |}.
Definition restingStore : StoreInfo :=
  Samples.storeOf 1 Serving (Some atRest) Samples.t0.
Definition restingCluster : SchedulerCluster :=
  Samples.fiveStores (Some atRest) Samples.t0.

(** Two ticks after the installation: store 1 is captured at [t0] on stale
    heartbeats, and promoted ten seconds later on fresh ones; the third
    tick is about to start, ten seconds after that. *)
Definition worldAfter (o : option World) (t : Time) : World :=
  match o with
  | Some w => at_time t w
  | None => Samples.idle
  end.
Definition afterCapture : World :=
  worldAfter (exec (Schedule stale false) Samples.idle)
             (Samples.t0 + 10 * Second).
Definition afterPromotion : World :=
  worldAfter (exec (Schedule fresh false) afterCapture)
             (Samples.t0 + 20 * Second).

End Scenes.

(** * Properties *)

(** ** Running the monad *)

Lemma bind_Ok {A B} (m : M A) (k : A -> M B) w a w1 :
  m w = Ok (a, w1) -> bind m k w = k a w1.
Proof. intros H. unfold bind. rewrite H. reflexivity. Qed.

Lemma emit_sent e w : emit e w = Ok (tt, sent [e] w).
Proof. reflexivity. Qed.

Lemma sent_nil w : sent [] w = w.
Proof. destruct w. unfold sent. simpl. rewrite app_nil_r. reflexivity. Qed.

Lemma sent_sent tr1 tr2 w : sent tr2 (sent tr1 w) = sent (tr1 ++ tr2) w.
Proof. unfold sent. simpl. rewrite app_assoc. reflexivity. Qed.

Lemma slowCandidate_eqb_eq a b : slowCandidate.eqb a b = true <-> a = b.
Proof.
  destruct a as [i t], b as [j u]. unfold slowCandidate.eqb. simpl.
  rewrite andb_true_iff, !Z.eqb_eq. split.
  - intros [-> ->]. reflexivity.
  - intros H. inversion H. auto.
Qed.

(** ** The eviction state *)

(** C9.  For every node id, [setStoreAndPersist id] returns, and leaves the
    evicted-node list equal to [[id]] whatever the outcome of the write.
    The list is set before the write is attempted: the data handed to the
    storage is the encoding of [[id]].  When the write fails (the storage
    answers with an error, or the fail point is on) that error is what the
    call returns, and the list in memory is still [[id]]. *)
Theorem setStoreAndPersist_not_atomic (id : Z) (w : World) :
  exists r w',
    Conf.setStoreAndPersist id w = Ok (r, w') /\
    EvictedStores (conf w') = [id] /\
    evictCandidate (conf w') = evictCandidate (conf w) /\
    lastEvictCandidate (conf w') = lastEvictCandidate (conf w) /\
    (persistFail w = false ->
       trace w' = trace w ++ [StorageSave EvictSlowTrendName [id]] /\
       r = SaveScheduleConfig (storage (conf w)) EvictSlowTrendName [id]) /\
    (persistFail w = true ->
       trace w' = trace w /\ r = Some "fail to persist"%string).
Proof.
  unfold Conf.setStoreAndPersist, Conf.Persist, Conf.getSchedulerName,
    getConf, setConf, failpoint_persistFail, bind, ret. simpl.
  destruct (persistFail w) eqn:Hpf; simpl.
  - do 2 eexists. split; [reflexivity|]. simpl.
    repeat split; try discriminate; reflexivity.
  - do 2 eexists. split; [reflexivity|]. simpl.
    repeat split; try discriminate; reflexivity.
Qed.

(** A failing write, run: the error comes back and store 7 is evicted in
    memory. *)
Example setStoreAndPersist_broken_storage :
  let w := Samples.worldOf
             (Samples.confOf Samples.brokenStorage slowCandidate.empty
                             slowCandidate.empty []) Samples.t0 in
  eval (Conf.setStoreAndPersist 7) w = Some (Some "storage unavailable"%string)
  /\ option_map (fun w' => EvictedStores (conf w'))
                (exec (Conf.setStoreAndPersist 7) w) = Some [7].
Proof. split; reflexivity. Qed.

(** C10, as stated, fails on a state whose current candidate is empty:
    [popCandidate] returns 0 and stores the empty value as last candidate,
    and [captureCandidate 0] then seeds the last candidate with its own
    fresh capture, which is not the value that was popped. *)
Lemma pop_capture_empty_slot_reseeded :
  let w := Samples.idle in
  ~ (forall id w1 w2,
       Conf.popCandidate w = Ok (id, w1) ->
       Conf.captureCandidate id w1 = Ok (tt, w2) ->
       lastEvictCandidate (conf w2) = evictCandidate (conf w)).
Proof.
  intros w H.
  specialize (H 0 _ _ eq_refl eq_refl).
  vm_compute in H. discriminate H.
Qed.

(** C10, amended.  For every state whose current candidate is not empty,
    [popCandidate] followed by [captureCandidate] of the id it returned
    leaves the last candidate equal to the value that was popped. *)
Theorem pop_then_capture_keeps_popped (w : World)
    (Hcand : evictCandidate (conf w) <> slowCandidate.empty) :
  exists w1 w2,
    Conf.popCandidate w
      = Ok (slowCandidate.storeID (evictCandidate (conf w)), w1) /\
    Conf.captureCandidate (slowCandidate.storeID (evictCandidate (conf w))) w1
      = Ok (tt, w2) /\
    lastEvictCandidate (conf w2) = evictCandidate (conf w).
Proof.
  assert (E : slowCandidate.eqb (evictCandidate (conf w)) slowCandidate.empty
               = false).
  { destruct (slowCandidate.eqb _ _) eqn:E; [|reflexivity].
    apply slowCandidate_eqb_eq in E. contradiction. }
  unfold Conf.popCandidate, Conf.captureCandidate, getConf, setConf, time_Now,
    bind, ret.
  do 2 eexists. split; [reflexivity|].
  cbn. rewrite E. split; reflexivity.
Qed.

Lemma pop_then_capture_keeps_popped_witness :
  let w := Samples.worldOf
             (Samples.confOf Samples.goodStorage
                (slowCandidate.mk 1 Samples.t0) slowCandidate.empty [])
             (Samples.t0 + 10 * Second) in
  evictCandidate (conf w) <> slowCandidate.empty /\
  exists w1 w2,
    Conf.popCandidate w = Ok (1, w1) /\
    Conf.captureCandidate 1 w1 = Ok (tt, w2) /\
    lastEvictCandidate (conf w2) = slowCandidate.mk 1 Samples.t0.
Proof.
  intros w.
  assert (H : evictCandidate (conf w) <> slowCandidate.empty)
    by (intros E; discriminate E).
  split; [exact H|].
  exact (pop_then_capture_keeps_popped w H).
Defined.

(** ** The recovery gate *)

(** C2, as stated, fails on a target without a trend signal: the check
    passes although no time at all has elapsed. *)
Lemma ready_for_recover_without_signal :
  ~ (eval (checkStoreReadyForRecover Samples.oneStore
             (Some Samples.silentStore) 0) Samples.idle = Some true
     <-> defaultRecoveryDurationGap <= 0).
Proof.
  intros [H _]. specialize (H eq_refl). vm_compute in H. apply H. reflexivity.
Qed.

(** C2, amended.  For every target node and every recovery gap,
    [checkStoreReadyForRecover] returns, and passes if and only if the
    target has no trend signal or the gap is at least 600 seconds; the
    contents of a signal are not read. *)
Theorem checkStoreReadyForRecover_iff (cluster : SchedulerCluster)
    (tgt : StoreInfo) (recoveryGap : Z) (w : World) :
  checkStoreReadyForRecover cluster (Some tgt) recoveryGap w
    = Ok (match GetSlowTrend tgt with
          | Some _ => defaultRecoveryDurationGap <=? recoveryGap
          | None => true
          end, w)
  /\ (eval (checkStoreReadyForRecover cluster (Some tgt) recoveryGap) w
        = Some true
      <-> GetSlowTrend tgt = None \/ 600 <= recoveryGap).
Proof.
  unfold eval, checkStoreReadyForRecover, deref, bind, ret.
  unfold defaultRecoveryDurationGap.
  destruct (GetSlowTrend tgt) as [t|]; split; try reflexivity.
  - destruct (Z.leb_spec 600 recoveryGap) as [Hle | Hlt]; split; intros H.
    + right. assumption.
    + reflexivity.
    + discriminate H.
    + destruct H as [H | H]; [discriminate H | lia].
  - split; intros _; [left|]; reflexivity.
Qed.

(** ** Counting loops *)

Lemma len_nonneg {A} (l : list A) : 0 <= len l.
Proof. unfold len. lia. Qed.

Lemma len_cons {A} (x : A) (l : list A) : len (x :: l) = len l + 1.
Proof. unfold len. simpl List.length. lia. Qed.

(** A loop that adds one for every element passing a test counts the
    elements of the filtered list. *)
Lemma fold_left_counts {A} (p : A -> bool) (f : Z -> A -> Z) :
  (forall n x, f n x = if p x then n + 1 else n) ->
  forall l a, fold_left f l a = a + len (filter p l).
Proof.
  intros Hf l. induction l as [|x l IH]; intros a; simpl.
  - unfold len. simpl. lia.
  - rewrite IH, Hf. destruct (p x).
    + rewrite len_cons. lia.
    + reflexivity.
Qed.

(** ** Freshness of the heartbeats *)

(** The result of [checkStoresAreUpdated], without its gauges. *)
Lemma checkStoresAreUpdated_run cluster slowStoreID ts w :
  exists tr,
    checkStoresAreUpdated cluster slowStoreID ts w
    = Ok (negb (total cluster <=? 1)
          && (ceil_half (total cluster)
              <=? updatedCount cluster slowStoreID ts),
          sent tr w).
Proof.
  unfold checkStoresAreUpdated, total, ceil_half, updatedCount.
  destruct (len (GetStores cluster) <=? 1).
  - exists []. rewrite sent_nil. reflexivity.
  - rewrite (fold_left_counts (updatedSince slowStoreID ts)).
    + eexists. unfold bind. rewrite !emit_sent, sent_sent. reflexivity.
    + intros n x. unfold updatedSince, eligible, notAfter.
      destruct (IsRemoved x), (IsPreparing x), (IsServing x),
        (GetID x =? slowStoreID), (ts <=? GetLastHeartbeatTS x); reflexivity.
Qed.

(** C7, as stated, fails on a cluster reduced to the candidate itself: the
    one node counts as updated, which reaches [ceil(1/2) = 1], and the check
    still fails. *)
Lemma stores_updated_single_store :
  ~ (eval (checkStoresAreUpdated Samples.oneStore 1 Samples.t0) Samples.idle
       = Some true
     <-> ceil_half (total Samples.oneStore)
         <= updatedCount Samples.oneStore 1 Samples.t0).
Proof.
  intros [_ H].
  assert (E : eval (checkStoresAreUpdated Samples.oneStore 1 Samples.t0)
                Samples.idle = Some false) by reflexivity.
  rewrite E in H.
  assert (F : Some false = Some true) by (apply H; vm_compute; discriminate).
  discriminate F.
Qed.

(** C7, amended.  For every cluster, target id and capture timestamp,
    [checkStoresAreUpdated] returns, and passes if and only if the cluster
    has at least two nodes and the number of eligible nodes whose last
    heartbeat is at or after the timestamp, plus all ineligible and target
    nodes, is at least [ceil(total/2)]. *)
Theorem checkStoresAreUpdated_iff (cluster : SchedulerCluster)
    (targetID : Z) (sinceTS : Time) (w : World) :
  (exists b, eval (checkStoresAreUpdated cluster targetID sinceTS) w = Some b)
  /\ (eval (checkStoresAreUpdated cluster targetID sinceTS) w = Some true
      <-> 2 <= total cluster
          /\ ceil_half (total cluster)
             <= updatedCount cluster targetID sinceTS).
Proof.
  destruct (checkStoresAreUpdated_run cluster targetID sinceTS w) as [tr E].
  unfold eval. rewrite E. split; [eexists; reflexivity|].
  destruct (Z.leb_spec (total cluster) 1) as [H1 | H1];
    destruct (Z.leb_spec (ceil_half (total cluster))
                (updatedCount cluster targetID sinceTS)) as [H2 | H2];
    simpl; split; intros H;
    solve [ discriminate H | reflexivity | lia ].
Qed.

(** ** Relative slowness and relative speed *)

(** The result of [checkStoreSlowerThanOthers] on a target that has a trend
    signal, without its gauges. *)
Lemma checkStoreSlowerThanOthers_run cluster tgt t w :
  GetSlowTrend tgt = Some t ->
  exists tr,
    checkStoreSlowerThanOthers cluster (Some tgt) w
    = Ok ((total cluster * 2 + 1) / 3 <=? slowerThanCount cluster tgt t,
          sent tr w).
Proof.
  intros Ht.
  unfold checkStoreSlowerThanOthers, deref, total, slowerThanCount.
  rewrite (bind_Ok _ _ w tgt w eq_refl). rewrite Ht.
  rewrite (fold_left_counts (slowerThan tgt t)).
  - eexists. unfold bind. rewrite !emit_sent, sent_sent. reflexivity.
  - intros n x. unfold slowerThan, eligible.
    destruct (IsRemoved x), (IsPreparing x), (IsServing x),
      (GetID x =? GetID tgt), (GetSlowTrend x) as [tx|]; simpl;
      try reflexivity;
      destruct (Float64.gt (PrimFloat.sub (CauseValue t) (CauseValue tx))
                  alterEpsilon && Float64.gt (CauseValue tx) alterEpsilon);
      reflexivity.
Qed.

(** On a target without a trend signal the check fails. *)
Lemma checkStoreSlowerThanOthers_no_data cluster tgt w :
  GetSlowTrend tgt = None ->
  checkStoreSlowerThanOthers cluster (Some tgt) w
  = Ok (false, sent [ActionStatusInc "cand.check-slower:no-data"] w).
Proof.
  intros Ht. unfold checkStoreSlowerThanOthers, deref.
  rewrite (bind_Ok _ _ w tgt w eq_refl). rewrite Ht. reflexivity.
Qed.

(** C3, as stated, fails on four nodes: two peers are slower-than-counted,
    which reaches [floor(4*2/3) = 2], and the check still fails, because the
    code asks for [(4*2+1)/3 = 3]. *)
Lemma slower_than_others_four_stores :
  ~ (eval (checkStoreSlowerThanOthers Samples.fourStores
             (Some Samples.slowStore)) Samples.idle = Some true
     <-> floor_two_thirds (total Samples.fourStores)
         <= slowerThanCount Samples.fourStores Samples.slowStore
              Samples.jitterTrend).
Proof.
  intros [_ H].
  assert (E : eval (checkStoreSlowerThanOthers Samples.fourStores
                      (Some Samples.slowStore)) Samples.idle = Some false)
    by (vm_compute; reflexivity).
  rewrite E in H.
  assert (F : Some false = Some true) by (apply H; vm_compute; discriminate).
  discriminate F.
Qed.

(** C3, amended.  For every cluster and every target node with a trend
    signal, [checkStoreSlowerThanOthers] returns, and passes if and only if
    the number of other eligible nodes with
    [target.causeValue - other.causeValue > epsilon] and
    [other.causeValue > epsilon] is at least [floor((total*2 + 1) / 3)],
    two thirds of the node count rounded to the nearest integer. *)
Theorem checkStoreSlowerThanOthers_iff (cluster : SchedulerCluster)
    (tgt : StoreInfo) (t : SlowTrend) (w : World)
    (Ht : GetSlowTrend tgt = Some t) :
  (exists b, eval (checkStoreSlowerThanOthers cluster (Some tgt)) w = Some b)
  /\ (eval (checkStoreSlowerThanOthers cluster (Some tgt)) w = Some true
      <-> (total cluster * 2 + 1) / 3 <= slowerThanCount cluster tgt t).
Proof.
  destruct (checkStoreSlowerThanOthers_run cluster tgt t w Ht) as [tr E].
  unfold eval. rewrite E. split; [eexists; reflexivity|].
  destruct (Z.leb_spec ((total cluster * 2 + 1) / 3)
              (slowerThanCount cluster tgt t)) as [H | H];
    split; intros H'; solve [ discriminate H' | reflexivity | lia ].
Qed.

Lemma checkStoreSlowerThanOthers_iff_witness :
  GetSlowTrend Samples.slowStore = Some Samples.jitterTrend /\
  (eval (checkStoreSlowerThanOthers (Samples.fiveStores Samples.jitter Samples.t0)
           (Some Samples.slowStore)) Samples.idle = Some true
   <-> (total (Samples.fiveStores Samples.jitter Samples.t0) * 2 + 1) / 3
       <= slowerThanCount (Samples.fiveStores Samples.jitter Samples.t0)
            Samples.slowStore Samples.jitterTrend).
Proof.
  split; [reflexivity|].
  exact (proj2 (checkStoreSlowerThanOthers_iff
                  (Samples.fiveStores Samples.jitter Samples.t0) Samples.slowStore
                  _ Samples.idle eq_refl)).
Defined.

(** The result of [checkStoreFasterThanOthers] on a target that has a trend
    signal, without its gauges. *)
Lemma checkStoreFasterThanOthers_run cluster tgt t w :
  GetSlowTrend tgt = Some t ->
  exists tr,
    checkStoreFasterThanOthers cluster (Some tgt) w
    = Ok (ceil_half (total cluster) <=? fasterThanCount cluster tgt t,
          sent tr w).
Proof.
  intros Ht.
  unfold checkStoreFasterThanOthers, deref, total, fasterThanCount, ceil_half.
  rewrite (bind_Ok _ _ w tgt w eq_refl). rewrite Ht.
  rewrite (fold_left_counts (fasterThan tgt t)).
  - eexists. unfold bind. rewrite !emit_sent, sent_sent. reflexivity.
  - intros n x. unfold fasterThan, eligible.
    destruct (IsRemoved x), (IsPreparing x), (IsServing x),
      (GetID x =? GetID tgt), (GetSlowTrend x) as [tx|]; simpl;
      try reflexivity;
      destruct (Float64.le (CauseValue t)
                  (PrimFloat.mul (CauseValue tx) onePointOne)
                && Float64.gt (CauseValue tx) alterEpsilon
                && Float64.gt (CauseValue t) alterEpsilon);
      reflexivity.
Qed.

Lemma checkStoreFasterThanOthers_no_data cluster tgt w :
  GetSlowTrend tgt = None ->
  checkStoreFasterThanOthers cluster (Some tgt) w
  = Ok (false, sent [ActionStatusInc "cand.check-faster:no-data"] w).
Proof.
  intros Ht. unfold checkStoreFasterThanOthers, deref.
  rewrite (bind_Ok _ _ w tgt w eq_refl). rewrite Ht. reflexivity.
Qed.

(** A check made through a nil store stops the process. *)
Lemma checkStoreFasterThanOthers_nil cluster w :
  checkStoreFasterThanOthers cluster None w = Panic.
Proof. reflexivity. Qed.

(** ** The candidate detector *)

Lemma returns_ret {A} (a : A) w : returns (ret a) w a.
Proof. exists []. rewrite sent_nil. reflexivity. Qed.

Lemma returns_emit e w : returns (emit e) w tt.
Proof. exists [e]. reflexivity. Qed.

Lemma returns_bind {A B} (m : M A) (k : A -> M B) w a b :
  returns m w a ->
  (forall tr, returns (k a) (sent tr w) b) ->
  returns (bind m k) w b.
Proof.
  intros [tr1 E1] Hk. destruct (Hk tr1) as [tr2 E2].
  exists (tr1 ++ tr2). rewrite (bind_Ok _ _ _ _ _ E1), E2, sent_sent.
  reflexivity.
Qed.

Lemma returns_DurationSinceAsSecs ts w :
  returns (DurationSinceAsSecs ts) w (SecondsAsUint64 (Sub (now w) ts)).
Proof. exists []. rewrite sent_nil. reflexivity. Qed.

Ltac returns_step :=
  first [ apply returns_ret
        | apply returns_emit
        | apply returns_DurationSinceAsSecs
        | eapply returns_bind; [ | intros ? ] ].

(** One round of the loop adds the store to the candidates if it is
    collected and to the affected counter if it is affected. *)
Lemma chooseEvictCandidate_body_run isRaftKV2 last cands aff store w :
  returns (chooseEvictCandidate_body isRaftKV2 last (cands, aff) store) w
    (if collected isRaftKV2 last (now w) store then cands ++ [store]
     else cands,
     if affected store then aff + 1 else aff).
Proof.
  unfold chooseEvictCandidate_body, collected, affected, eligible,
    primaryMatch, secondaryMatch.
  destruct (IsRemoved store); [apply returns_ret|].
  destruct (IsPreparing store), (IsServing store); cbn [negb orb andb];
    try apply returns_ret;
    (destruct (GetSlowTrend store) as [t|]; [|apply returns_ret]);
    destruct (Float64.gt (CauseRate t) alterEpsilon),
      (Float64.lt (ResultRate t) (PrimFloat.opp alterEpsilon)),
      isRaftKV2; cbn [negb orb andb];
    try (repeat returns_step; fail);
    (destruct (negb (slowCandidate.eqb last slowCandidate.empty)
               && (slowCandidate.storeID last =? GetID store));
     cbn [negb orb andb]; [|apply returns_ret]);
    (eapply returns_bind; [apply returns_DurationSinceAsSecs|]);
    intros tr; cbn [now sent];
    destruct (SecondsAsUint64 (Sub (now w) (slowCandidate.captureTS last))
              <=? minReCheckDurationGap);
    repeat returns_step.
Qed.

Lemma forRange_body_run isRaftKV2 last stores : forall cands aff w,
  returns (forRange (chooseEvictCandidate_body isRaftKV2 last) stores
             (cands, aff)) w
    (cands ++ filter (collected isRaftKV2 last (now w)) stores,
     aff + len (filter affected stores)).
Proof.
  induction stores as [|x l IH]; intros cands aff w; simpl.
  - rewrite app_nil_r. replace (aff + len []) with aff by (unfold len; simpl; lia).
    apply returns_ret.
  - eapply returns_bind; [apply chooseEvictCandidate_body_run|].
    intros tr. specialize (IH
      (if collected isRaftKV2 last (now w) x then cands ++ [x] else cands)
      (if affected x then aff + 1 else aff) (sent tr w)).
    simpl in IH.
    destruct (collected isRaftKV2 last (now w) x), (affected x);
      rewrite ?len_cons, <- ?app_assoc in *; simpl in *;
      try (replace (aff + (len (filter affected l) + 1))
             with (aff + 1 + len (filter affected l)) by lia);
      exact IH.
Qed.

Lemma returns_checkStoreSlowerThanOthers cluster store w :
  returns (checkStoreSlowerThanOthers cluster (Some store)) w
    (slowerThanOthers cluster store).
Proof.
  unfold slowerThanOthers, returns.
  destruct (GetSlowTrend store) as [t|] eqn:Ht.
  - apply checkStoreSlowerThanOthers_run. assumption.
  - eexists. apply checkStoreSlowerThanOthers_no_data. assumption.
Qed.

(** What the detector returns is a function of the snapshot, of the last
    candidate and of the clock; it changes nothing but the metrics. *)
Lemma chooseEvictCandidate_run cluster last w :
  returns (chooseEvictCandidate cluster last) w
    (detected cluster last (now w)).
Proof.
  unfold chooseEvictCandidate, detected, total, candidatesOf.
  destruct (len (GetStores cluster) <? 3); [repeat returns_step|].
  eapply returns_bind; [apply forRange_body_run|].
  intros tr. cbn [app now sent].
  destruct (filter (collected (IsRaftKV2 cluster) last (now w))
              (GetStores cluster)) as [|s [|s2 l]].
  - repeat returns_step.
  - cbn [len List.length Z.of_nat Z.eqb Z.ltb Z.compare Pos.of_succ_nat
         Pos.compare Pos.compare_cont nth_error deref].
    eapply returns_bind; [apply returns_ret|]. intros tr1.
    destruct (affectedCount cluster <? affectedStoreThreshold cluster) eqn:Ha;
      unfold affectedCount in Ha; rewrite Z.add_0_l, Ha;
      [repeat returns_step|].
    eapply returns_bind; [apply returns_checkStoreSlowerThanOthers|].
    intros tr2. unfold total.
    destruct (slowerThanOthers cluster s); repeat returns_step.
  - assert (E : (len (s :: s2 :: l) =? 0) = false)
      by (rewrite !len_cons; pose proof (len_nonneg l); lia).
    assert (F : (1 <? len (s :: s2 :: l)) = true)
      by (rewrite !len_cons; pose proof (len_nonneg l); lia).
    rewrite E, F. repeat returns_step.
Qed.

(** A store counted as slower-than is eligible and is not the target. *)
Lemma slowerThan_eligible tgt t x :
  slowerThan tgt t x = true -> eligible x = true.
Proof.
  unfold slowerThan. rewrite !andb_true_iff. intros [[H _] _]. exact H.
Qed.

Lemma slowerThan_self tgt t : slowerThan tgt t tgt = false.
Proof.
  unfold slowerThan. rewrite Z.eqb_refl.
  destruct (eligible tgt); reflexivity.
Qed.

Lemma slowerThan_le_eligible tgt t l :
  len (filter (slowerThan tgt t) l) <= len (filter eligible l).
Proof.
  induction l as [|x l IH]; simpl; [lia|].
  destruct (slowerThan tgt t x) eqn:E.
  - rewrite (slowerThan_eligible _ _ _ E), !len_cons. lia.
  - destruct (eligible x); rewrite ?len_cons; lia.
Qed.

(** The target is among the eligible nodes and is never counted: the count
    stays below the number of eligible nodes. *)
Lemma slowerThan_lt_eligible tgt t l :
  In tgt l -> eligible tgt = true ->
  len (filter (slowerThan tgt t) l) + 1 <= len (filter eligible l).
Proof.
  intros Hin Hel. induction l as [|x l IH]; [contradiction|].
  destruct Hin as [-> | Hin]; simpl.
  - rewrite slowerThan_self, Hel, len_cons.
    pose proof (slowerThan_le_eligible tgt t l). lia.
  - specialize (IH Hin). destruct (slowerThan tgt t x) eqn:E.
    + rewrite (slowerThan_eligible _ _ _ E), !len_cons. lia.
    + destruct (eligible x); rewrite ?len_cons; lia.
Qed.

Lemma collected_eligible isRaftKV2 last t x :
  collected isRaftKV2 last t x = true -> eligible x = true.
Proof. unfold collected. rewrite andb_true_iff. intros [H _]. exact H. Qed.

(** With fewer than three eligible nodes nothing is detected: either the
    snapshot has fewer than three nodes, or the sole candidate has at most
    one eligible peer, short of the two thirds of three nodes or more. *)
Lemma detected_needs_three_eligible cluster last t :
  eligibleCount cluster < 3 -> detected cluster last t = None.
Proof.
  intros Hel. unfold detected.
  destruct (Z.ltb_spec (total cluster) 3) as [Hlt | Hge]; [reflexivity|].
  destruct (candidatesOf cluster last t) as [|s [|s2 l]] eqn:Hc;
    try reflexivity.
  destruct (affectedCount cluster <? affectedStoreThreshold cluster);
    [reflexivity|].
  unfold slowerThanOthers.
  destruct (GetSlowTrend s) as [ts|]; [|reflexivity].
  assert (Hin : In s (candidatesOf cluster last t))
    by (rewrite Hc; left; reflexivity).
  unfold candidatesOf in Hin. apply filter_In in Hin.
  destruct Hin as [Hin Hcol]. apply collected_eligible in Hcol.
  pose proof (slowerThan_lt_eligible s ts (GetStores cluster) Hin Hcol) as Hb.
  fold (slowerThanCount cluster s ts) in Hb. fold (eligibleCount cluster) in Hb.
  assert (Hthr : 2 <= (total cluster * 2 + 1) / 3)
    by (apply Z.div_le_lower_bound; lia).
  destruct (Z.leb_spec ((total cluster * 2 + 1) / 3)
              (slowerThanCount cluster s ts)) as [H | H]; [lia|reflexivity].
Qed.

(** C4.  For every cluster snapshot with fewer than three eligible nodes
    (non-removed, Preparing or Serving), [chooseEvictCandidate] returns, and
    returns no store, whatever the trend signals, the last candidate and
    the clock; it leaves the configuration as it was. *)
Theorem chooseEvictCandidate_needs_three_eligible
    (cluster : SchedulerCluster) (last : slowCandidate.t) (w : World)
    (Hel : eligibleCount cluster < 3) :
  exists w',
    chooseEvictCandidate cluster last w = Ok (None, w') /\ conf w' = conf w.
Proof.
  destruct (chooseEvictCandidate_run cluster last w) as [tr E].
  rewrite (detected_needs_three_eligible cluster last (now w) Hel) in E.
  exists (sent tr w). split; [exact E | reflexivity].
Qed.

Lemma chooseEvictCandidate_needs_three_eligible_witness :
  eligibleCount Samples.twoEligible < 3 /\
  exists w',
    chooseEvictCandidate Samples.twoEligible slowCandidate.empty Samples.idle
      = Ok (None, w')
    /\ conf w' = conf Samples.idle.
Proof.
  assert (H : eligibleCount Samples.twoEligible < 3) by (vm_compute; reflexivity).
  split; [exact H|].
  exact (chooseEvictCandidate_needs_three_eligible Samples.twoEligible
           slowCandidate.empty Samples.idle H).
Defined.

(** C6, as stated, fails on ten nodes of which nine are eligible, with the
    ratio 0.3: the sole candidate is rejected for affecting too few stores
    although the affected counter, 2, is not below
    [floor(9 * 0.3) = 2]; the threshold the code compares with is
    [int(10 * 0.3) = 3], computed over all the nodes of the snapshot. *)
Lemma affected_threshold_not_over_eligible :
  let c := Samples.tenStores in
  let claimed :=
    Float64.to_int
      (PrimFloat.mul (Float64.of_int (eligibleCount c))
                     (GetSlowStoreEvictingAffectedStoreRatioThreshold c)) in
  candidatesOf c slowCandidate.empty Samples.t0 = [Samples.slowStore]
  /\ affectedCount c = 2 /\ claimed = 2
  /\ affectedStoreThreshold c <> claimed
  /\ option_map (fun w' => List.last (trace w') (NotifyEvicted 0))
       (exec (chooseEvictCandidate c slowCandidate.empty) Samples.idle)
     = Some (ActionStatusInc "cand.none:affect-a-few").
Proof.
  repeat split; try (vm_compute; reflexivity).
  vm_compute. discriminate.
Qed.

(** C6, amended.  In [chooseEvictCandidate], when exactly one candidate was
    collected, the candidate is rejected, on the "affects a few stores"
    branch, whenever the affected-node counter (eligible nodes with
    [resultRate < -epsilon]) is strictly below
    [int(totalNodeCount * configuredRatio)]: the threshold is computed over
    the count of all the nodes of the snapshot, eligible or not. *)
Theorem chooseEvictCandidate_affects_a_few
    (cluster : SchedulerCluster) (last : slowCandidate.t) (w : World)
    (store : StoreInfo)
    (Htotal : 3 <= total cluster)
    (Hone : candidatesOf cluster last (now w) = [store])
    (Hfew : affectedCount cluster
            < Float64.to_int
                (PrimFloat.mul
                   (Float64.of_int (total cluster))
                   (GetSlowStoreEvictingAffectedStoreRatioThreshold cluster))) :
  exists tr,
    chooseEvictCandidate cluster last w
    = Ok (None,
          sent (tr ++ [LogInfo "evict-slow-trend-scheduler failed to confirm candidate: it only affect a few stores"
                               (GetID store);
                       ActionStatusInc "cand.none:affect-a-few"]) w).
Proof.
  unfold chooseEvictCandidate.
  destruct (Z.ltb_spec (len (GetStores cluster)) 3) as [Hlt | _];
    [unfold total in Htotal; lia|].
  destruct (forRange_body_run (IsRaftKV2 cluster) last (GetStores cluster)
              [] 0 w) as [tr E].
  rewrite (bind_Ok _ _ _ _ _ E).
  cbn [app]. fold (candidatesOf cluster last (now w)). rewrite Hone.
  cbn [len List.length Z.of_nat Z.eqb Z.ltb Z.compare Pos.of_succ_nat
       Pos.compare Pos.compare_cont nth_error deref].
  rewrite (bind_Ok _ _ _ _ _ (eq_refl : ret store (sent tr w) = _)).
  fold (affectedCount cluster). rewrite Z.add_0_l.
  fold (total cluster). unfold affectedStoreThreshold. fold (total cluster).
  destruct (Z.ltb_spec (affectedCount cluster)
              (Float64.to_int
                 (PrimFloat.mul (Float64.of_int (total cluster))
                    (GetSlowStoreEvictingAffectedStoreRatioThreshold cluster))))
    as [_ | Hge]; [|lia].
  exists tr. unfold bind. rewrite !emit_sent, !sent_sent. reflexivity.
Qed.

Lemma chooseEvictCandidate_affects_a_few_witness :
  3 <= total Samples.tenStores /\
  candidatesOf Samples.tenStores slowCandidate.empty (now Samples.idle)
    = [Samples.slowStore] /\
  affectedCount Samples.tenStores < 3 /\
  exists tr,
    chooseEvictCandidate Samples.tenStores slowCandidate.empty Samples.idle
    = Ok (None,
          sent (tr ++ [LogInfo "evict-slow-trend-scheduler failed to confirm candidate: it only affect a few stores" 1;
                       ActionStatusInc "cand.none:affect-a-few"])
               Samples.idle).
Proof.
  assert (H1 : 3 <= total Samples.tenStores) by (vm_compute; discriminate).
  assert (H2 : candidatesOf Samples.tenStores slowCandidate.empty
                 (now Samples.idle) = [Samples.slowStore])
    by (vm_compute; reflexivity).
  assert (H3 : affectedCount Samples.tenStores
               < Float64.to_int
                   (PrimFloat.mul
                      (Float64.of_int (total Samples.tenStores))
                      (GetSlowStoreEvictingAffectedStoreRatioThreshold
                         Samples.tenStores)))
    by (vm_compute; reflexivity).
  split; [exact H1|]. split; [exact H2|].
  split; [vm_compute; reflexivity|].
  exact (chooseEvictCandidate_affects_a_few Samples.tenStores
           slowCandidate.empty Samples.idle Samples.slowStore H1 H2 H3).
Defined.

(** ** The scheduling decision loop, on an evicted store *)

(** Membership in a trace built by appending. *)
Ltac in_trace := repeat (rewrite in_app_iff || simpl); auto 10.

Lemma evictedStore_run w :
  Conf.evictedStore w = Ok (evictedStoreOf (conf w), w).
Proof.
  unfold Conf.evictedStore, evictedStoreOf, getConf, bind.
  destruct (EvictedStores (conf w)); reflexivity.
Qed.

(** Clearing an eviction: the list is emptied in memory, the write is
    attempted, and the cluster is told that the store recovered, whether
    the write succeeded or not. *)
Lemma cleanupEvictLeader_run cluster w :
  evictedStoreOf (conf w) <> 0 ->
  exists tr,
    cleanupEvictLeader cluster w
    = Ok (tt, {| conf := with_EvictedStores [] (conf w); now := now w;
                 persistFail := persistFail w; trace := trace w ++ tr |})
    /\ In (NotifyRecovered (evictedStoreOf (conf w))) tr
    /\ (persistFail w = false -> In (StorageSave EvictSlowTrendName []) tr).
Proof.
  intros Hev.
  unfold cleanupEvictLeader, Conf.clearAndPersist, Conf.Persist,
    Conf.getSchedulerName, SlowTrendRecovered, bind.
  assert (Hz : (evictedStoreOf (conf w) =? 0) = false)
    by (apply Z.eqb_neq; exact Hev).
  rewrite evictedStore_run, Hz.
  unfold getConf, setConf, emit, failpoint_persistFail, ret. cbn.
  destruct (persistFail w); cbn; rewrite ?Hz; cbn.
  - eexists. split; [rewrite <- ?app_assoc; reflexivity|].
    split; [simpl; tauto | discriminate].
  - destruct (SaveScheduleConfig (storage (conf w)) EvictSlowTrendName [])
      as [e|]; cbn; rewrite ?Hz; cbn;
      (eexists; split; [rewrite <- ?app_assoc; reflexivity|]);
      split; try intros _; simpl; tauto.
Qed.

(** With nothing evicted there is nothing to clear. *)
Lemma cleanupEvictLeader_idle cluster w :
  evictedStoreOf (conf w) = 0 -> cleanupEvictLeader cluster w = Ok (tt, w).
Proof.
  intros Hev.
  unfold cleanupEvictLeader, Conf.clearAndPersist, bind.
  rewrite evictedStore_run, Hev. reflexivity.
Qed.

(** The head of [Schedule] on a configuration that records an evicted
    store: the counter is bumped and the evicting branch is entered. *)
Lemma Schedule_evicting cluster dryRun w :
  evictedStoreOf (conf w) <> 0 ->
  Schedule cluster dryRun w
  = (let store := GetStore cluster (evictedStoreOf (conf w)) in
     let gone := match store with
                 | None => true
                 | Some s => IsRemoved s
                 end in
     if gone then
       s <- deref store ;;
       emit (LogInfo "store evicted by slow trend has been removed" (GetID s)) ;;
       emit (ActionStatusInc "evict.stop:removed") ;;
       cleanupEvictLeader cluster ;;
       ret NoOperators
     else
       secs <- Conf.candidateCapturedSecs ;;
       recover <- checkStoreCanRecover cluster store secs ;;
       if recover then
         s <- deref store ;;
         emit (LogInfo "store evicted by slow trend has been recovered"
                       (GetID s)) ;;
         emit (ActionStatusInc "evict.stop:recovered") ;;
         cleanupEvictLeader cluster ;;
         ret NoOperators
       else
         emit (ActionStatusInc "evict.continue") ;;
         scheduleEvictLeader cluster)
    (sent [SchedulerCounterInc GetName "schedule"] w).
Proof.
  intros Hev. unfold Schedule.
  rewrite (bind_Ok _ _ _ _ _ (emit_sent _ w)).
  rewrite (bind_Ok _ _ _ _ _ (evictedStore_run _)). cbn [conf sent].
  destruct (Z.eqb_spec (evictedStoreOf (conf w)) 0) as [E | _];
    [contradiction|]. cbn [negb].
  rewrite (bind_Ok _ _ _ _ _ (evictedStore_run _)). reflexivity.
Qed.

(** When the evicted store is no longer in the snapshot, the tick stops the
    process: the log line of the "removed" branch reads the id through the
    nil store. *)
Lemma Schedule_evicted_store_missing cluster dryRun w :
  evictedStoreOf (conf w) <> 0 ->
  GetStore cluster (evictedStoreOf (conf w)) = None ->
  Schedule cluster dryRun w = Panic.
Proof.
  intros Hev Hnone. rewrite (Schedule_evicting _ _ _ Hev).
  cbn zeta. rewrite Hnone. reflexivity.
Qed.

(** C5.  The tick can stop the owning process: with store 1 recorded as
    evicted and deleted from the cluster, [GetStore] answers nil, the
    branch for a removed store is entered, and its log line calls [GetID]
    on the nil store. *)
Theorem Schedule_panics_when_evicted_store_deleted :
  evictedStoreOf (conf (Samples.evicting1 Samples.goodStorage)) = 1
  /\ GetStore Samples.store1Deleted 1 = None
  /\ Schedule Samples.store1Deleted false
       (Samples.evicting1 Samples.goodStorage) = Panic.
Proof.
  split; [reflexivity|]. split; [reflexivity|].
  apply Schedule_evicted_store_missing; [discriminate | reflexivity].
Qed.

(** The half of the "removed" branch that works.  For every state in which
    a store is recorded as evicted and that store is still in the snapshot
    with the lifecycle status Removed, the tick returns no operator, empties
    the evicted-node list, attempts the write of the emptied configuration
    (whenever the fail point is off) and tells the cluster that the store
    recovered; the candidate slots are left as they were, so that the state
    is Idle when no candidate was pending. *)
Theorem Schedule_removed_store_to_idle (cluster : SchedulerCluster)
    (dryRun : bool) (w : World) (s : StoreInfo)
    (Hev : evictedStoreOf (conf w) <> 0)
    (Hstore : GetStore cluster (evictedStoreOf (conf w)) = Some s)
    (Hremoved : IsRemoved s = true) :
  exists w',
    Schedule cluster dryRun w = Ok (NoOperators, w')
    /\ EvictedStores (conf w') = []
    /\ evictCandidate (conf w') = evictCandidate (conf w)
    /\ lastEvictCandidate (conf w') = lastEvictCandidate (conf w)
    /\ In (ActionStatusInc "evict.stop:removed") (trace w')
    /\ In (NotifyRecovered (evictedStoreOf (conf w))) (trace w')
    /\ (persistFail w = false ->
        In (StorageSave EvictSlowTrendName []) (trace w')).
Proof.
  rewrite (Schedule_evicting _ _ _ Hev). cbn zeta.
  rewrite Hstore, Hremoved. cbn [deref].
  rewrite (bind_Ok _ _ _ _ _ (eq_refl : ret s _ = _)).
  rewrite (bind_Ok _ _ _ _ _ (emit_sent _ _)).
  rewrite (bind_Ok _ _ _ _ _ (emit_sent _ _)).
  rewrite !sent_sent.
  match goal with
  | |- context [sent ?tr w] =>
      destruct (cleanupEvictLeader_run cluster (sent tr w) Hev)
        as [tr' (E & Hrec & Hsave)]
  end.
  rewrite (bind_Ok _ _ _ _ _ E).
  eexists. split; [reflexivity|]. cbn.
  cbn [conf sent persistFail] in Hrec, Hsave.
  repeat split; try intros Hpf; try specialize (Hsave Hpf); in_trace.
Qed.

Lemma Schedule_removed_store_to_idle_witness :
  evictedStoreOf (conf (Samples.evicting1 Samples.brokenStorage)) <> 0 /\
  GetStore Samples.store1Tombstone 1
    = Some (Samples.storeOf 1 Removed None Samples.t0) /\
  exists w',
    Schedule Samples.store1Tombstone false
      (Samples.evicting1 Samples.brokenStorage) = Ok (NoOperators, w')
    /\ EvictedStores (conf w') = []
    /\ evictCandidate (conf w') = slowCandidate.empty
    /\ lastEvictCandidate (conf w') = slowCandidate.mk 1 Samples.t0
    /\ In (ActionStatusInc "evict.stop:removed") (trace w')
    /\ In (NotifyRecovered 1) (trace w')
    /\ (false = false -> In (StorageSave EvictSlowTrendName []) (trace w')).
Proof.
  assert (H : evictedStoreOf (conf (Samples.evicting1 Samples.brokenStorage))
              <> 0) by discriminate.
  split; [exact H|]. split; [reflexivity|].
  exact (Schedule_removed_store_to_idle Samples.store1Tombstone false
           (Samples.evicting1 Samples.brokenStorage)
           (Samples.storeOf 1 Removed None Samples.t0) H eq_refl eq_refl).
Defined.

(** C8.  The tick does not take every removed store to Idle.  With store 1
    recorded as evicted and removed from the cluster entirely (the snapshot
    holds stores 2, 3 and 4, [GetStore] answers nil), the tick enters the
    branch written for a removed store and stops at its log line: nothing
    is cleared, nothing is written, no state is left, whatever the storage
    and whatever [dryRun].  On the same configuration, with store 1 still
    in the snapshot as a tombstone, the same branch goes through: no
    operator, the evicted list emptied, the emptied list written, the
    cluster told that store 1 recovered. *)
Theorem Schedule_deleted_store_not_to_idle :
  forall (st : ConfigStorage) (dryRun : bool),
    evictedStoreOf (conf (Samples.evicting1 st)) = 1
    /\ GetStore Samples.store1Deleted 1 = None
    /\ Schedule Samples.store1Deleted dryRun (Samples.evicting1 st) = Panic
    /\ (forall ops w',
          Schedule Samples.store1Deleted dryRun (Samples.evicting1 st)
          <> Ok (ops, w'))
    /\ exists w',
         Schedule Samples.store1Tombstone dryRun (Samples.evicting1 st)
         = Ok (NoOperators, w')
         /\ EvictedStores (conf w') = []
         /\ In (StorageSave EvictSlowTrendName []) (trace w')
         /\ In (NotifyRecovered 1) (trace w').
Proof.
  intros st dryRun.
  assert (Hev : evictedStoreOf (conf (Samples.evicting1 st)) <> 0)
    by discriminate.
  assert (Hpanic : Schedule Samples.store1Deleted dryRun (Samples.evicting1 st)
                   = Panic)
    by (apply Schedule_evicted_store_missing; [exact Hev | reflexivity]).
  split; [reflexivity|]. split; [reflexivity|]. split; [exact Hpanic|].
  split; [intros ops w'; rewrite Hpanic; discriminate|].
  destruct (Schedule_removed_store_to_idle Samples.store1Tombstone dryRun
              (Samples.evicting1 st)
              (Samples.storeOf 1 Removed None Samples.t0) Hev eq_refl eq_refl)
    as (w' & E & Hlist & _ & _ & _ & Hrec & Hsave).
  exists w'. split; [exact E|]. split; [exact Hlist|].
  split; [apply Hsave; reflexivity | exact Hrec].
Qed.

(** ** The recovery gap *)

Lemma candidateCapturedSecs_run w :
  Conf.candidateCapturedSecs w
  = Ok (SecondsAsUint64
          (Sub (now w) (slowCandidate.captureTS (evictCandidate (conf w)))),
        w).
Proof. reflexivity. Qed.

(** Measured from the zero Time, the gap is beyond any recovery gap as soon
    as the clock reads ten minutes past the first instant of year 1. *)
Lemma gap_since_zero_time t :
  600 * Second <= t -> 600 <= SecondsAsUint64 (Sub t GoTime.zero).
Proof.
  intros Ht. unfold SecondsAsUint64, Sub, GoTime.zero, maxDuration,
    minDuration, Second in *.
  rewrite Z.sub_0_r.
  set (d := Z.max (- 2 ^ 63) (Z.min (2 ^ 63 - 1) t)).
  assert (Hd : 600 * 1000000000 <= d <= 2 ^ 63 - 1) by (unfold d; lia).
  rewrite Z.quot_div_nonneg by lia.
  assert (Hq : 600 <= d / 1000000000)
    by (apply Z.div_le_lower_bound; lia).
  assert (Hu : d / 1000000000 < 2 ^ 64).
  { apply Z.div_lt_upper_bound; lia. }
  rewrite Z.mod_small by lia. exact Hq.
Qed.

(** The gate itself: a target with a trend signal that is faster than its
    peers can recover only when the gap handed to the check is at least
    600. *)
Lemma checkStoreCanRecover_run cluster tgt t gap w :
  GetSlowTrend tgt = Some t ->
  returns (checkStoreCanRecover cluster (Some tgt) gap) w
    ((ceil_half (total cluster) <=? fasterThanCount cluster tgt t)
     && (defaultRecoveryDurationGap <=? gap)).
Proof.
  intros Ht. unfold checkStoreCanRecover.
  eapply returns_bind; [apply checkStoreFasterThanOthers_run; exact Ht|].
  intros tr.
  destruct (ceil_half (total cluster) <=? fasterThanCount cluster tgt t);
    cbn [andb]; [|apply returns_ret].
  unfold checkStoreReadyForRecover, deref.
  eapply returns_bind; [apply returns_ret|]. intros tr1. rewrite Ht.
  apply returns_ret.
Qed.

Lemma returns_scheduleEvictLeader cluster w :
  returns (scheduleEvictLeader cluster) w
    (match GetStore cluster (evictedStoreOf (conf w)) with
     | Some _ => EvictLeaderBatch GetName GetType (EvictedStores (conf w))
     | None => NoOperators
     end).
Proof.
  unfold scheduleEvictLeader.
  eapply returns_bind.
  - exists []. rewrite sent_nil. apply evictedStore_run.
  - intros tr. cbn [conf sent].
    destruct (GetStore cluster (evictedStoreOf (conf w))) as [s|];
      [|apply returns_ret].
    unfold scheduleEvictLeaderBatch, Conf.getStores, getConf.
    repeat returns_step.
Qed.

(** What the claim C1 describes does hold of the gap the code measures,
    the time since the capture of the current candidate: while that gap is
    below 600 the tick keeps the eviction and asks again for the leaders to
    be moved. *)
Lemma Schedule_keeps_evicting_within_measured_gap cluster dryRun w s t :
  evictedStoreOf (conf w) <> 0 ->
  GetStore cluster (evictedStoreOf (conf w)) = Some s ->
  IsRemoved s = false ->
  GetSlowTrend s = Some t ->
  SecondsAsUint64
    (Sub (now w) (slowCandidate.captureTS (evictCandidate (conf w)))) < 600 ->
  exists tr,
    Schedule cluster dryRun w
    = Ok (EvictLeaderBatch GetName GetType (EvictedStores (conf w)),
          sent tr w).
Proof.
  intros Hev Hstore Hrem Ht Hgap.
  rewrite (Schedule_evicting _ _ _ Hev). cbn zeta.
  rewrite Hstore, Hrem.
  rewrite (bind_Ok _ _ _ _ _ (candidateCapturedSecs_run _)).
  cbn [conf now sent].
  destruct (checkStoreCanRecover_run cluster s t
              (SecondsAsUint64
                 (Sub (now w)
                    (slowCandidate.captureTS (evictCandidate (conf w)))))
              (sent [SchedulerCounterInc GetName "schedule"] w) Ht)
    as [tr1 E1].
  rewrite (bind_Ok _ _ _ _ _ E1).
  replace (defaultRecoveryDurationGap <=? _) with false
    by (symmetry; apply Z.leb_gt; exact Hgap).
  rewrite andb_false_r.
  rewrite (bind_Ok _ _ _ _ _ (emit_sent _ _)).
  destruct (returns_scheduleEvictLeader cluster
              (sent [ActionStatusInc "evict.continue"]
                 (sent tr1 (sent [SchedulerCounterInc GetName "schedule"] w))))
    as [tr2 E2].
  rewrite E2. cbn [conf sent]. rewrite Hstore, !sent_sent.
  eexists. reflexivity.
Qed.

(** But a promoted store has left the candidate slot, so the gap is
    measured from the zero Time: as soon as the store is no slower than a
    majority of its peers, the tick ends the eviction, however recently it
    started. *)
Lemma Schedule_recovers_once_faster cluster dryRun w s t :
  evictedStoreOf (conf w) <> 0 ->
  GetStore cluster (evictedStoreOf (conf w)) = Some s ->
  IsRemoved s = false ->
  GetSlowTrend s = Some t ->
  evictCandidate (conf w) = slowCandidate.empty ->
  600 * Second <= now w ->
  ceil_half (total cluster) <= fasterThanCount cluster s t ->
  exists w',
    Schedule cluster dryRun w = Ok (NoOperators, w')
    /\ EvictedStores (conf w') = []
    /\ In (ActionStatusInc "evict.stop:recovered") (trace w')
    /\ In (NotifyRecovered (evictedStoreOf (conf w))) (trace w').
Proof.
  intros Hev Hstore Hrem Ht Hcand Hnow Hfast.
  rewrite (Schedule_evicting _ _ _ Hev). cbn zeta.
  rewrite Hstore, Hrem.
  rewrite (bind_Ok _ _ _ _ _ (candidateCapturedSecs_run _)).
  cbn [conf now sent]. rewrite Hcand. cbn [slowCandidate.captureTS slowCandidate.empty].
  pose proof (gap_since_zero_time (now w) Hnow) as Hgap.
  destruct (checkStoreCanRecover_run cluster s t
              (SecondsAsUint64 (Sub (now w) GoTime.zero))
              (sent [SchedulerCounterInc GetName "schedule"] w) Ht)
    as [tr1 E1].
  rewrite (bind_Ok _ _ _ _ _ E1).
  replace (ceil_half (total cluster) <=? fasterThanCount cluster s t)
    with true by (symmetry; apply Z.leb_le; exact Hfast).
  replace (defaultRecoveryDurationGap <=? _) with true
    by (symmetry; apply Z.leb_le; exact Hgap).
  cbn [andb deref].
  rewrite (bind_Ok _ _ _ _ _ (eq_refl : ret s _ = _)).
  rewrite (bind_Ok _ _ _ _ _ (emit_sent _ _)).
  rewrite (bind_Ok _ _ _ _ _ (emit_sent _ _)).
  rewrite !sent_sent.
  match goal with
  | |- context [sent ?tr w] =>
      destruct (cleanupEvictLeader_run cluster (sent tr w) Hev)
        as [tr' (E & Hrec & _)]
  end.
  rewrite (bind_Ok _ _ _ _ _ E).
  eexists. split; [reflexivity|]. cbn.
  cbn [conf sent] in Hrec.
  split; [reflexivity|].
  split; in_trace.
Qed.

(** C1.  The five-node scenario, run.  Store 1 is captured at [t0] and
    promoted ten seconds later; the promotion leaves the world
    [evictingFor490s] once the clock reads [t0 + 500 s].  There store 1 is
    back at the speed of its peers (FasterThanOthers passes) and 490
    seconds have elapsed since the eviction started (500 since the
    capture), yet the tick ends the eviction instead of asking again for
    the leaders to be moved: the gap handed to the recovery gate is read
    from the emptied candidate slot, that is, from the zero Time. *)
Theorem Schedule_recovers_before_recovery_gap :
  let recoveredCluster :=
    Samples.fiveStores Samples.healthy (Samples.t0 + 499 * Second) in
  let w := Samples.evictingFor490s in
  option_map conf Samples.promoted = Some (conf w)
  /\ now w - (Samples.t0 + 10 * Second) = 490 * Second
  /\ eval (checkStoreFasterThanOthers recoveredCluster
             (GetStore recoveredCluster 1)) w = Some true
  /\ eval Conf.candidateCapturedSecs w = Some 9223372036
  /\ eval (Schedule recoveredCluster false) w = Some NoOperators
  /\ option_map (fun w' => EvictedStores (conf w'))
       (exec (Schedule recoveredCluster false) w) = Some []
  /\ option_map (fun w' => filter (fun e => match e with
                                            | ActionStatusInc _ => true
                                            | _ => false
                                            end) (trace w'))
       (exec (Schedule recoveredCluster false) w)
     = Some [ActionStatusInc "evict.stop:recovered"].
Proof.
  repeat split; vm_compute; reflexivity.
Qed.

(** ** What every tick keeps true *)

Lemma post_ret {A} (a : A) w (Q : A -> World -> Prop) :
  Q a w -> post (ret a) w Q.
Proof. intros H. exact H. Qed.

Lemma post_bind {A B} (m : M A) (k : A -> M B) w (Q : B -> World -> Prop) :
  post m w (fun a w1 => post (k a) w1 Q) -> post (bind m k) w Q.
Proof.
  unfold post, bind. destruct (m w) as [[a w1]|]; intros H; exact H.
Qed.

Lemma post_returns {A} (m : M A) w v (Q : A -> World -> Prop) :
  returns m w v -> (forall tr, Q v (sent tr w)) -> post m w Q.
Proof. intros [tr E] H. unfold post. rewrite E. apply H. Qed.

Lemma post_emit e w (Q : unit -> World -> Prop) :
  Q tt (sent [e] w) -> post (emit e) w Q.
Proof. intros H. exact H. Qed.

Lemma post_deref p w (Q : StoreInfo -> World -> Prop) :
  (forall s, p = Some s -> Q s w) -> post (deref p) w Q.
Proof. intros H. destruct p as [s|]; [apply H; reflexivity | exact I]. Qed.

Lemma returns_candidate w :
  returns Conf.candidate w (slowCandidate.storeID (evictCandidate (conf w))).
Proof. exists []. rewrite sent_nil. reflexivity. Qed.

Lemma returns_captureTS w :
  returns Conf.captureTS w (slowCandidate.captureTS (evictCandidate (conf w))).
Proof. exists []. rewrite sent_nil. reflexivity. Qed.

Lemma returns_candidateCapturedSecs w :
  returns Conf.candidateCapturedSecs w
    (SecondsAsUint64
       (Sub (now w) (slowCandidate.captureTS (evictCandidate (conf w))))).
Proof. exists []. rewrite sent_nil. reflexivity. Qed.

Lemma returns_evictedStore w :
  returns Conf.evictedStore w (evictedStoreOf (conf w)).
Proof. exists []. rewrite sent_nil. apply evictedStore_run. Qed.

Lemma returns_getConf w : returns getConf w (conf w).
Proof. exists []. rewrite sent_nil. reflexivity. Qed.

(** The checks read the configuration and do not write it, also on a nil
    target, where they do not return at all. *)
Lemma post_checkStoreFasterThanOthers cluster target w
    (Q : bool -> World -> Prop) :
  (forall b tr, Q b (sent tr w)) ->
  post (checkStoreFasterThanOthers cluster target) w Q.
Proof.
  intros H. destruct target as [s|]; [|exact I].
  destruct (GetSlowTrend s) as [t|] eqn:Ht.
  - destruct (checkStoreFasterThanOthers_run cluster s t w Ht) as [tr E].
    unfold post. rewrite E. apply H.
  - unfold post. rewrite (checkStoreFasterThanOthers_no_data _ _ _ Ht).
    apply H.
Qed.

Lemma post_checkStoreCanRecover cluster target gap w
    (Q : bool -> World -> Prop) :
  (forall b tr, Q b (sent tr w)) ->
  post (checkStoreCanRecover cluster target gap) w Q.
Proof.
  intros H. unfold checkStoreCanRecover.
  apply post_bind, post_checkStoreFasterThanOthers. intros b tr.
  destruct b; [|apply post_ret, H].
  unfold checkStoreReadyForRecover.
  apply post_bind, post_deref. intros s _.
  destruct (GetSlowTrend s); apply post_ret, H.
Qed.

Lemma post_captureCandidate id w (Q : unit -> World -> Prop) :
  (forall w', EvictedStores (conf w') = EvictedStores (conf w) -> Q tt w') ->
  post (Conf.captureCandidate id) w Q.
Proof.
  intros H.
  unfold post, Conf.captureCandidate, time_Now, getConf, setConf, bind, ret.
  cbn.
  destruct (slowCandidate.eqb (lastEvictCandidate (conf w))
              slowCandidate.empty); apply H; reflexivity.
Qed.

Lemma post_popCandidate w (Q : Z -> World -> Prop) :
  (forall id w',
     EvictedStores (conf w') = EvictedStores (conf w) ->
     evictCandidate (conf w') = slowCandidate.empty -> Q id w') ->
  post Conf.popCandidate w Q.
Proof. intros H. apply H; reflexivity. Qed.

Lemma post_prepareEvictLeader cluster id w (Q : error -> World -> Prop) :
  (forall r w', evictCandidate (conf w') = evictCandidate (conf w) ->
                Q r w') ->
  post (prepareEvictLeader cluster id) w Q.
Proof.
  intros H.
  unfold post, prepareEvictLeader, Conf.setStoreAndPersist, Conf.Persist,
    Conf.getSchedulerName, SlowTrendEvicted, failpoint_persistFail, getConf,
    setConf, emit, bind, ret. cbn.
  destruct (persistFail w); cbn; [apply H; reflexivity|].
  destruct (SaveScheduleConfig (storage (conf w)) EvictSlowTrendName [id]);
    cbn; apply H; reflexivity.
Qed.

Lemma post_cleanupEvictLeader cluster w (Q : unit -> World -> Prop) :
  (forall w', evictedStoreOf (conf w') = 0 -> Q tt w') ->
  post (cleanupEvictLeader cluster) w Q.
Proof.
  intros H. unfold post.
  destruct (Z.eq_dec (evictedStoreOf (conf w)) 0) as [E | E].
  - rewrite (cleanupEvictLeader_idle _ _ E). apply H. exact E.
  - destruct (cleanupEvictLeader_run cluster w E) as [tr (E' & _)].
    rewrite E'. apply H. reflexivity.
Qed.

Ltac post_step :=
  lazymatch goal with
  | |- post (ret _) _ _ => apply post_ret
  | |- post (emit _) _ _ => apply post_emit
  | |- post (bind _ _) _ _ => apply post_bind
  | |- post Conf.candidate _ _ =>
      eapply post_returns; [apply returns_candidate | intros ?]
  | |- post Conf.captureTS _ _ =>
      eapply post_returns; [apply returns_captureTS | intros ?]
  | |- post Conf.candidateCapturedSecs _ _ =>
      eapply post_returns; [apply returns_candidateCapturedSecs | intros ?]
  | |- post Conf.evictedStore _ _ =>
      eapply post_returns; [apply returns_evictedStore | intros ?]
  | |- post getConf _ _ =>
      eapply post_returns; [apply returns_getConf | intros ?]
  | |- post (chooseEvictCandidate _ _) _ _ =>
      eapply post_returns; [apply chooseEvictCandidate_run | intros ?]
  | |- post (scheduleEvictLeader _) _ _ =>
      eapply post_returns; [apply returns_scheduleEvictLeader | intros ?]
  | |- post (checkStoresAreUpdated ?c ?i ?t) ?w _ =>
      let H := fresh "H" in
      destruct (checkStoresAreUpdated_run c i t w) as [? H];
      eapply post_returns; [eexists; exact H | intros ?]
  | |- post (checkStoreFasterThanOthers _ _) _ _ =>
      apply post_checkStoreFasterThanOthers; intros ? ?
  | |- post (checkStoreCanRecover _ _ _) _ _ =>
      apply post_checkStoreCanRecover; intros ? ?
  | |- post (deref _) _ _ => apply post_deref; intros ? ?
  | |- post (Conf.captureCandidate _) _ _ =>
      apply post_captureCandidate; intros ? ?
  | |- post Conf.popCandidate _ _ =>
      apply post_popCandidate; intros ? ? ? ?
  | |- post (prepareEvictLeader _ _) _ _ =>
      apply post_prepareEvictLeader; intros ? ? ?
  | |- post (cleanupEvictLeader _) _ _ =>
      apply post_cleanupEvictLeader; intros ? ?
  end;
  cbn beta iota; cbn [conf now sent].

Ltac post_case :=
  match goal with
  | |- post (if ?b then _ else _) _ _ => destruct b eqn:?
  | |- post (match ?o with Some _ => _ | None => _ end) _ _ =>
      destruct o eqn:?
  end.

(** While a store is recorded as evicted the candidate slot is empty: the
    only way into the Evicting state empties the slot before it records the
    store, and nothing fills the slot again until the eviction ends.  The
    recovery gap of an evicted store is therefore always the one of
    [gap_since_zero_time]. *)
Lemma Schedule_keeps_evicting_clears_candidate cluster dryRun w :
  candidateClearedWhenEvicting (conf w) ->
  post (Schedule cluster dryRun) w
    (fun _ w' => candidateClearedWhenEvicting (conf w')).
Proof.
  intros Hinv. unfold Schedule.
  repeat (first [ post_step | post_case ]);
    unfold candidateClearedWhenEvicting, evictedStoreOf in *;
    intros; cbn [conf sent] in *;
    repeat match goal with
           | H : negb (_ =? _) = true |- _ =>
               apply negb_true_iff, Z.eqb_neq in H
           | H : negb (_ =? _) = false |- _ =>
               apply negb_false_iff, Z.eqb_eq in H
           end;
    solve [ congruence | auto ].
Qed.

Lemma reachable_candidate_cleared w :
  reachable w -> candidateClearedWhenEvicting (conf w).
Proof.
  induction 1 as [st evicted t inject | w cluster dryRun ops w' t _ IH Hrun].
  - intros _. reflexivity.
  - pose proof (Schedule_keeps_evicting_clears_candidate cluster dryRun w IH)
      as Hpost.
    unfold post in Hpost. rewrite Hrun in Hpost. exact Hpost.
Qed.

(** In every world a tick can start in, an evicted store that is no slower
    than a majority of its peers is released at once: the 600 seconds of
    the recovery gap are never waited for. *)
Lemma reachable_recovers_once_faster cluster dryRun w s t :
  reachable w ->
  evictedStoreOf (conf w) <> 0 ->
  GetStore cluster (evictedStoreOf (conf w)) = Some s ->
  IsRemoved s = false ->
  GetSlowTrend s = Some t ->
  600 * Second <= now w ->
  ceil_half (total cluster) <= fasterThanCount cluster s t ->
  exists w',
    Schedule cluster dryRun w = Ok (NoOperators, w')
    /\ EvictedStores (conf w') = []
    /\ In (ActionStatusInc "evict.stop:recovered") (trace w')
    /\ In (NotifyRecovered (evictedStoreOf (conf w))) (trace w').
Proof.
  intros Hreach Hev Hstore Hrem Ht Hnow Hfast.
  apply (Schedule_recovers_once_faster cluster dryRun w s t); try assumption.
  apply (reachable_candidate_cleared w Hreach). exact Hev.
Qed.

(** * Further properties of the code *)

(** ** The candidate slots and the evicted list *)

Lemma popCandidate_run w :
  Conf.popCandidate w
  = Ok (slowCandidate.storeID (evictCandidate (conf w)),
        withConf (poppedConf (conf w)) w).
Proof. reflexivity. Qed.

Lemma captureCandidate_run id w :
  Conf.captureCandidate id w
  = Ok (tt, withConf (capturedConf id (now w) (conf w)) w).
Proof.
  unfold Conf.captureCandidate, capturedConf, time_Now, getConf, setConf,
    bind, ret, withConf. cbn.
  destruct (slowCandidate.eqb (lastEvictCandidate (conf w))
              slowCandidate.empty); reflexivity.
Qed.

(** X1.  Capturing a candidate and popping it gives back the id that was
    captured, empties the current slot, and leaves as last candidate the
    capture just made (the id with the clock reading of the capture),
    whatever the last candidate was before. *)
Theorem capture_then_pop (id : Z) (w : World) :
  exists w1 w2,
    Conf.captureCandidate id w = Ok (tt, w1)
    /\ Conf.popCandidate w1 = Ok (id, w2)
    /\ evictCandidate (conf w2) = slowCandidate.empty
    /\ lastEvictCandidate (conf w2) = slowCandidate.mk id (now w)
    /\ EvictedStores (conf w2) = EvictedStores (conf w)
    /\ trace w2 = trace w.
Proof.
  rewrite captureCandidate_run. eexists. eexists. split; [reflexivity|].
  rewrite popCandidate_run. unfold capturedConf. cbn.
  destruct (slowCandidate.eqb (lastEvictCandidate (conf w))
              slowCandidate.empty); cbn; repeat split; reflexivity.
Qed.

Lemma setStoreAndPersist_run id w :
  exists r tr,
    Conf.setStoreAndPersist id w
    = Ok (r, sent tr (withConf (with_EvictedStores [id] (conf w)) w))
    /\ tr = (if persistFail w then []
             else [StorageSave EvictSlowTrendName [id]])
    /\ r = (if persistFail w then Some "fail to persist"%string
            else SaveScheduleConfig (storage (conf w)) EvictSlowTrendName
                   [id]).
Proof.
  unfold Conf.setStoreAndPersist, Conf.Persist, Conf.getSchedulerName,
    getConf, setConf, emit, failpoint_persistFail, bind, ret, sent, withConf.
  cbn.
  destruct (persistFail w); cbn; do 2 eexists;
    (split; [|split; reflexivity]); cbn; rewrite ?app_nil_r; reflexivity.
Qed.

Lemma clearAndPersist_run cluster w :
  evictedStoreOf (conf w) <> 0 ->
  exists r tr,
    Conf.clearAndPersist cluster w
    = Ok ((evictedStoreOf (conf w), r),
          sent tr (withConf (with_EvictedStores [] (conf w)) w))
    /\ tr = EvictedStatusGaugeSet
              match GetStore cluster (evictedStoreOf (conf w)) with
              | Some store => GetAddress store
              | None => "?"%string
              end (evictedStoreOf (conf w)) 0
            :: (if persistFail w then []
                else [StorageSave EvictSlowTrendName []])
    /\ r = (if persistFail w then Some "fail to persist"%string
            else SaveScheduleConfig (storage (conf w)) EvictSlowTrendName []).
Proof.
  intros Hev.
  assert (Hz : (evictedStoreOf (conf w) =? 0) = false)
    by (apply Z.eqb_neq; exact Hev).
  unfold Conf.clearAndPersist, bind. rewrite evictedStore_run, Hz.
  unfold Conf.Persist, Conf.getSchedulerName, getConf, setConf, emit,
    failpoint_persistFail, bind, ret, sent, withConf. cbn.
  destruct (persistFail w); cbn; do 2 eexists;
    (split; [|split; reflexivity]); cbn; rewrite <- ?app_assoc; reflexivity.
Qed.

(** X2.  Recording a store as evicted and clearing the eviction again: the
    clearing returns the id that was recorded, the list ends empty, and,
    with the fail point off, the storage was handed first the encoding of
    [[id]] and then the encoding of the empty list, whatever it answered. *)
Theorem set_then_clear (cluster : SchedulerCluster) (id : Z) (w : World)
    (Hid : id <> 0) :
  exists r1 w1 r2 w2,
    Conf.setStoreAndPersist id w = Ok (r1, w1)
    /\ eval Conf.evictedStore w1 = Some id
    /\ Conf.clearAndPersist cluster w1 = Ok ((id, r2), w2)
    /\ EvictedStores (conf w2) = []
    /\ eval Conf.evictedStore w2 = Some 0
    /\ (persistFail w = false ->
        filter (fun e => match e with StorageSave _ _ => true | _ => false end)
               (trace w2)
        = filter (fun e => match e with StorageSave _ _ => true | _ => false end)
                 (trace w)
          ++ [StorageSave EvictSlowTrendName [id];
              StorageSave EvictSlowTrendName []]).
Proof.
  destruct (setStoreAndPersist_run id w) as (r1 & tr1 & E1 & Htr1 & _).
  set (w1 := sent tr1 (withConf (with_EvictedStores [id] (conf w)) w)) in *.
  assert (Hev : evictedStoreOf (conf w1) <> 0) by exact Hid.
  destruct (clearAndPersist_run cluster w1 Hev) as (r2 & tr2 & E2 & Htr2 & _).
  exists r1, w1, r2. eexists.
  split; [exact E1|]. split; [reflexivity|]. split; [exact E2|].
  split; [reflexivity|]. split; [reflexivity|].
  intros Hpf. cbn. rewrite Htr1, Htr2. cbn. rewrite Hpf.
  rewrite !filter_app. cbn. rewrite <- app_assoc. reflexivity.
Qed.

Lemma set_then_clear_witness :
  7 <> 0 /\
  exists r1 w1 r2 w2,
    Conf.setStoreAndPersist 7 Samples.idle = Ok (r1, w1)
    /\ eval Conf.evictedStore w1 = Some 7
    /\ Conf.clearAndPersist Samples.oneStore w1 = Ok ((7, r2), w2)
    /\ EvictedStores (conf w2) = []
    /\ eval Conf.evictedStore w2 = Some 0
    /\ (persistFail Samples.idle = false ->
        filter (fun e => match e with StorageSave _ _ => true | _ => false end)
               (trace w2)
        = filter (fun e => match e with StorageSave _ _ => true | _ => false end)
                 (trace Samples.idle)
          ++ [StorageSave EvictSlowTrendName [7];
              StorageSave EvictSlowTrendName []]).
Proof.
  assert (H : 7 <> 0) by discriminate.
  split; [exact H|].
  exact (set_then_clear Samples.oneStore 7 Samples.idle H).
Defined.

(** X3.  Cleaning up is idempotent: [Cleanup] always returns and leaves no
    store evicted, and a second [Cleanup] right after changes nothing and
    sends nothing, neither a write nor a notification. *)
Theorem Cleanup_idempotent (cluster : SchedulerCluster) (w : World) :
  exists w1,
    Cleanup cluster w = Ok (tt, w1)
    /\ evictedStoreOf (conf w1) = 0
    /\ Cleanup cluster w1 = Ok (tt, w1).
Proof.
  unfold Cleanup.
  destruct (Z.eq_dec (evictedStoreOf (conf w)) 0) as [E | E].
  - exists w. rewrite (cleanupEvictLeader_idle _ _ E). auto.
  - destruct (cleanupEvictLeader_run cluster w E) as [tr (E1 & _)].
    eexists. split; [exact E1|]. split; [reflexivity|].
    apply cleanupEvictLeader_idle. reflexivity.
Qed.

(** X4.  Ending an eviction does not depend on the write: when the storage
    refuses the emptied configuration, the list is emptied in memory all the
    same and the cluster is told that the store recovered, after the failed
    write and its log line. *)
Theorem cleanup_despite_failed_write (cluster : SchedulerCluster) (w : World)
    (e : string)
    (Hev : evictedStoreOf (conf w) <> 0)
    (Hpf : persistFail w = false)
    (Hsave : SaveScheduleConfig (storage (conf w)) EvictSlowTrendName []
             = Some e) :
  exists w',
    cleanupEvictLeader cluster w = Ok (tt, w')
    /\ EvictedStores (conf w') = []
    /\ trace w'
       = trace w
         ++ [EvictedStatusGaugeSet
               match GetStore cluster (evictedStoreOf (conf w)) with
               | Some store => GetAddress store
               | None => "?"%string
               end (evictedStoreOf (conf w)) 0;
             StorageSave EvictSlowTrendName [];
             LogInfo "evict-slow-trend-scheduler persist config failed"
                     (evictedStoreOf (conf w));
             NotifyRecovered (evictedStoreOf (conf w))].
Proof.
  assert (Hz : (evictedStoreOf (conf w) =? 0) = false)
    by (apply Z.eqb_neq; exact Hev).
  destruct (clearAndPersist_run cluster w Hev) as (r & tr & E & Htr & Hr).
  rewrite Hpf in Htr, Hr. rewrite Hsave in Hr. subst r tr.
  unfold cleanupEvictLeader. rewrite (bind_Ok _ _ _ _ _ E).
  cbn beta iota. rewrite Hz. cbn [negb].
  unfold SlowTrendRecovered, bind. rewrite !emit_sent, !sent_sent.
  eexists. split; [reflexivity|]. split; reflexivity.
Qed.

Lemma cleanup_despite_failed_write_witness :
  evictedStoreOf (conf (Samples.evicting1 Samples.brokenStorage)) <> 0 /\
  exists w',
    cleanupEvictLeader Samples.store1Tombstone
      (Samples.evicting1 Samples.brokenStorage) = Ok (tt, w')
    /\ EvictedStores (conf w') = []
    /\ trace w'
       = [EvictedStatusGaugeSet "tikv" 1 0;
          StorageSave EvictSlowTrendName [];
          LogInfo "evict-slow-trend-scheduler persist config failed" 1;
          NotifyRecovered 1].
Proof.
  assert (H : evictedStoreOf (conf (Samples.evicting1 Samples.brokenStorage))
              <> 0) by discriminate.
  split; [exact H|].
  exact (cleanup_despite_failed_write Samples.store1Tombstone
           (Samples.evicting1 Samples.brokenStorage) "storage unavailable"
           H eq_refl eq_refl).
Defined.

(** ** The checks *)

Lemma returns_checkStoreFasterThanOthers cluster store w :
  returns (checkStoreFasterThanOthers cluster (Some store)) w
    (fasterThanOthers cluster store).
Proof.
  unfold fasterThanOthers, returns.
  destruct (GetSlowTrend store) as [t|] eqn:Ht.
  - apply checkStoreFasterThanOthers_run. assumption.
  - eexists. apply checkStoreFasterThanOthers_no_data. assumption.
Qed.

Lemma returns_checkStoresAreUpdated cluster id ts w :
  returns (checkStoresAreUpdated cluster id ts) w
    (storesAreUpdated cluster id ts).
Proof. apply checkStoresAreUpdated_run. Qed.

(** X5.  For every cluster and every target store,
    [checkStoreFasterThanOthers] returns, and passes if and only if the
    target has a trend signal and the number of other eligible stores with
    [target.causeValue <= other.causeValue * 1.1], [other.causeValue >
    epsilon] and [target.causeValue > epsilon] is at least
    [(total + 1) / 2]. *)
Theorem checkStoreFasterThanOthers_iff (cluster : SchedulerCluster)
    (tgt : StoreInfo) (w : World) :
  (exists b, eval (checkStoreFasterThanOthers cluster (Some tgt)) w = Some b)
  /\ (eval (checkStoreFasterThanOthers cluster (Some tgt)) w = Some true
      <-> exists t, GetSlowTrend tgt = Some t
                    /\ (total cluster + 1) / 2
                       <= fasterThanCount cluster tgt t).
Proof.
  destruct (returns_checkStoreFasterThanOthers cluster tgt w) as [tr E].
  unfold eval. rewrite E. split; [eexists; reflexivity|].
  unfold fasterThanOthers, ceil_half.
  destruct (GetSlowTrend tgt) as [t|].
  - destruct (Z.leb_spec ((total cluster + 1) / 2)
                (fasterThanCount cluster tgt t)) as [H | H]; split.
    + intros _. exists t. auto.
    + reflexivity.
    + intros H'. discriminate H'.
    + intros (t' & Ht' & Hle). inversion Ht'. subst t'. lia.
  - split; [intros H; discriminate H|].
    intros (t & Ht & _). discriminate Ht.
Qed.

(** X6.  Recovery needs both halves: for every target store,
    [checkStoreCanRecover] returns, and passes if and only if the target has
    a trend signal, is faster than a majority of the stores, and the gap it
    is handed is at least 600. *)
Theorem checkStoreCanRecover_iff (cluster : SchedulerCluster)
    (tgt : StoreInfo) (recoveryGap : Z) (w : World) :
  (exists b,
     eval (checkStoreCanRecover cluster (Some tgt) recoveryGap) w = Some b)
  /\ (eval (checkStoreCanRecover cluster (Some tgt) recoveryGap) w = Some true
      <-> exists t, GetSlowTrend tgt = Some t
                    /\ (total cluster + 1) / 2
                       <= fasterThanCount cluster tgt t
                    /\ 600 <= recoveryGap).
Proof.
  unfold eval.
  destruct (GetSlowTrend tgt) as [t|] eqn:Ht.
  - destruct (checkStoreCanRecover_run cluster tgt t recoveryGap w Ht)
      as [tr E].
    rewrite E. split; [eexists; reflexivity|].
    unfold ceil_half, defaultRecoveryDurationGap.
    destruct (Z.leb_spec ((total cluster + 1) / 2)
                (fasterThanCount cluster tgt t)) as [H1 | H1];
      destruct (Z.leb_spec 600 recoveryGap) as [H2 | H2]; cbn [andb]; split;
      try (intros H; discriminate H); try reflexivity;
      try (intros _; exists t; auto);
      intros (t' & Ht' & Hle & Hgap); inversion Ht'; subst t'; lia.
  - unfold checkStoreCanRecover.
    rewrite (bind_Ok _ _ _ _ _
               (checkStoreFasterThanOthers_no_data cluster tgt w Ht)).
    split; [eexists; reflexivity|]. split; [intros H; discriminate H|].
    intros (t & Ht' & _). discriminate Ht'.
Qed.

(** X7.  A target whose cause value is not above epsilon is never judged
    faster than the others, whatever its peers report, as soon as the
    snapshot holds a store: the comparison asks for
    [target.causeValue > epsilon] on every peer it counts. *)
Theorem checkStoreFasterThanOthers_at_rest (cluster : SchedulerCluster)
    (tgt : StoreInfo) (t : SlowTrend) (w : World)
    (Htotal : 1 <= total cluster)
    (Ht : GetSlowTrend tgt = Some t)
    (Hrest : Float64.gt (CauseValue t) alterEpsilon = false) :
  eval (checkStoreFasterThanOthers cluster (Some tgt)) w = Some false.
Proof.
  destruct (checkStoreFasterThanOthers_run cluster tgt t w Ht) as [tr E].
  unfold eval. rewrite E. f_equal.
  assert (Hnone : fasterThanCount cluster tgt t = 0).
  { unfold fasterThanCount.
    replace (filter (fasterThan tgt t) (GetStores cluster)) with
      (@nil StoreInfo); [reflexivity|].
    symmetry. induction (GetStores cluster) as [|x l IH]; [reflexivity|].
    simpl. rewrite IH.
    unfold fasterThan. rewrite Hrest.
    destruct (GetSlowTrend x); rewrite ?andb_false_r; reflexivity. }
  rewrite Hnone. apply Z.leb_gt. unfold ceil_half.
  apply Z.div_str_pos. lia.
Qed.

Lemma checkStoreFasterThanOthers_at_rest_witness :
  1 <= total Scenes.restingCluster /\
  GetSlowTrend Scenes.restingStore = Some Scenes.atRest /\
  eval (checkStoreFasterThanOthers Scenes.restingCluster
          (Some Scenes.restingStore)) Samples.idle = Some false.
Proof.
  assert (H : 1 <= total Scenes.restingCluster) by (vm_compute; discriminate).
  split; [exact H|]. split; [reflexivity|].
  exact (checkStoreFasterThanOthers_at_rest Scenes.restingCluster
           Scenes.restingStore Scenes.atRest Samples.idle H eq_refl eq_refl).
Defined.

Lemma filter_len_mono {A} (p q : A -> bool) (l : list A) :
  (forall x, p x = true -> q x = true) ->
  len (filter p l) <= len (filter q l).
Proof.
  intros Hpq. induction l as [|x l IH]; simpl; [lia|].
  destruct (p x) eqn:Hp.
  - rewrite (Hpq x Hp), !len_cons. lia.
  - destruct (q x); rewrite ?len_cons; lia.
Qed.

(** X8.  The freshness check is monotone in the timestamp: heartbeats that
    are fresh enough for a capture time are fresh enough for any earlier
    one. *)
Theorem checkStoresAreUpdated_earlier (cluster : SchedulerCluster)
    (slowStoreID : Z) (ts ts' : Time) (w w' : World)
    (Hle : ts' <= ts)
    (Hpass : eval (checkStoresAreUpdated cluster slowStoreID ts) w
             = Some true) :
  eval (checkStoresAreUpdated cluster slowStoreID ts') w' = Some true.
Proof.
  destruct (checkStoresAreUpdated_run cluster slowStoreID ts w) as [tr E].
  destruct (checkStoresAreUpdated_run cluster slowStoreID ts' w') as [tr' E'].
  unfold eval in *. rewrite E in Hpass. rewrite E'. f_equal.
  injection Hpass as Hpass. apply andb_true_iff in Hpass.
  destruct Hpass as [H1 H2]. rewrite H1. cbn [andb].
  apply Z.leb_le in H2. apply Z.leb_le.
  assert (Hmono : updatedCount cluster slowStoreID ts
                  <= updatedCount cluster slowStoreID ts').
  { apply filter_len_mono. intros x. unfold updatedSince.
    rewrite !orb_true_iff, !Z.leb_le. intros [[H | H] | H]; auto.
    right. lia. }
  lia.
Qed.

Lemma checkStoresAreUpdated_earlier_witness :
  Samples.t0 <= Samples.t0 + Second /\
  eval (checkStoresAreUpdated Scenes.fresh 1 (Samples.t0 + Second))
       Samples.idle = Some true /\
  eval (checkStoresAreUpdated Scenes.fresh 1 Samples.t0) Samples.idle
    = Some true.
Proof.
  assert (H1 : Samples.t0 <= Samples.t0 + Second) by (vm_compute; discriminate).
  assert (H2 : eval (checkStoresAreUpdated Scenes.fresh 1
                       (Samples.t0 + Second)) Samples.idle = Some true)
    by (vm_compute; reflexivity).
  split; [exact H1|]. split; [exact H2|].
  exact (checkStoresAreUpdated_earlier Scenes.fresh 1 (Samples.t0 + Second)
           Samples.t0 Samples.idle Samples.idle H1 H2).
Defined.

(** ** The detector *)

(** X9.  For every snapshot, last candidate and world, [chooseEvictCandidate]
    returns, and it returns the store [s] if and only if the snapshot has at
    least three stores, [s] is the one and only store collected as
    candidate, the affected-store counter reaches
    [int(len(stores) * ratio)], and [s] has a trend signal with at least
    [(len(stores)*2 + 1) / 3] other eligible stores slower-than-counted. *)
Theorem chooseEvictCandidate_iff (cluster : SchedulerCluster)
    (last : slowCandidate.t) (w : World) (s : StoreInfo) :
  (exists r, eval (chooseEvictCandidate cluster last) w = Some r)
  /\ (eval (chooseEvictCandidate cluster last) w = Some (Some s)
      <-> 3 <= total cluster
          /\ candidatesOf cluster last (now w) = [s]
          /\ affectedStoreThreshold cluster <= affectedCount cluster
          /\ exists t, GetSlowTrend s = Some t
                       /\ (total cluster * 2 + 1) / 3
                          <= slowerThanCount cluster s t).
Proof.
  destruct (chooseEvictCandidate_run cluster last w) as [tr E].
  unfold eval. rewrite E. split; [eexists; reflexivity|].
  unfold detected, slowerThanOthers.
  destruct (Z.ltb_spec (total cluster) 3) as [H3 | H3].
  { split; [intros H; discriminate H | intros [H _]; lia]. }
  destruct (candidatesOf cluster last (now w)) as [|c [|c2 l]].
  - split; [intros H; discriminate H|]. intros (_ & H & _). discriminate H.
  - destruct (Z.ltb_spec (affectedCount cluster)
                (affectedStoreThreshold cluster)) as [Ha | Ha].
    { split; [intros H; discriminate H|]. intros (_ & _ & H & _). lia. }
    destruct (GetSlowTrend c) as [t|] eqn:Ht.
    + destruct (Z.leb_spec ((total cluster * 2 + 1) / 3)
                  (slowerThanCount cluster c t)) as [Hs | Hs]; split.
      * intros H. injection H as <-. repeat split; auto. exists t. auto.
      * intros (_ & H & _). injection H as <-. reflexivity.
      * intros H. discriminate H.
      * intros (_ & H & _ & t' & Ht' & Hle). injection H as <-.
        rewrite Ht in Ht'. injection Ht' as <-. lia.
    + split; [intros H; discriminate H|].
      intros (_ & H & _ & t' & Ht' & _). injection H as <-.
      rewrite Ht in Ht'. discriminate Ht'.
  - split; [intros H; discriminate H|]. intros (_ & H & _). discriminate H.
Qed.

(** X10.  What the detector returns is a store of the snapshot that is not
    removed, is Preparing or Serving, reports a trend signal, and whose
    cause rate is above epsilon. *)
Theorem chooseEvictCandidate_sound (cluster : SchedulerCluster)
    (last : slowCandidate.t) (w : World) (s : StoreInfo)
    (Hret : eval (chooseEvictCandidate cluster last) w = Some (Some s)) :
  In s (GetStores cluster)
  /\ IsRemoved s = false
  /\ (IsPreparing s || IsServing s) = true
  /\ exists t, GetSlowTrend s = Some t
               /\ Float64.gt (CauseRate t) alterEpsilon = true.
Proof.
  destruct (chooseEvictCandidate_run cluster last w) as [tr E].
  unfold eval in Hret. rewrite E in Hret. injection Hret as Hdet.
  unfold detected in Hdet.
  destruct (total cluster <? 3); [discriminate Hdet|].
  destruct (candidatesOf cluster last (now w)) as [|c [|c2 l]] eqn:Hc;
    try discriminate Hdet.
  assert (Hin : In c (candidatesOf cluster last (now w)))
    by (rewrite Hc; left; reflexivity).
  destruct (affectedCount cluster <? affectedStoreThreshold cluster);
    [discriminate Hdet|].
  destruct (slowerThanOthers cluster c); [|discriminate Hdet].
  injection Hdet as <-.
  unfold candidatesOf in Hin. apply filter_In in Hin.
  destruct Hin as [Hin Hcol]. split; [exact Hin|].
  unfold collected, eligible in Hcol.
  apply andb_true_iff in Hcol. destruct Hcol as [Hel Hmatch].
  apply andb_true_iff in Hel. destruct Hel as [Hrem Hserv].
  split; [apply negb_true_iff; exact Hrem|]. split; [exact Hserv|].
  destruct (GetSlowTrend c) as [t|]; [|discriminate Hmatch].
  exists t. split; [reflexivity|].
  unfold primaryMatch, secondaryMatch in Hmatch.
  destruct (Float64.gt (CauseRate t) alterEpsilon); [reflexivity|].
  rewrite andb_false_r in Hmatch. cbn in Hmatch. discriminate Hmatch.
Qed.

Lemma chooseEvictCandidate_sound_witness :
  eval (chooseEvictCandidate Scenes.fresh slowCandidate.empty) Samples.idle
    = Some (Some (Samples.storeOf 1 Serving Samples.jitter
                    (Samples.t0 + Second))) /\
  exists t,
    Samples.jitter = Some t /\ Float64.gt (CauseRate t) alterEpsilon = true.
Proof.
  assert (H : eval (chooseEvictCandidate Scenes.fresh slowCandidate.empty)
                Samples.idle
              = Some (Some (Samples.storeOf 1 Serving Samples.jitter
                              (Samples.t0 + Second))))
    by (vm_compute; reflexivity).
  split; [exact H|].
  exact (proj2 (proj2 (proj2
           (chooseEvictCandidate_sound Scenes.fresh slowCandidate.empty
              Samples.idle _ H)))).
Defined.

(** X11.  When two stores or more are collected as candidates the detector
    returns none of them. *)
Theorem chooseEvictCandidate_ambiguous (cluster : SchedulerCluster)
    (last : slowCandidate.t) (w : World)
    (Hmany : 2 <= len (candidatesOf cluster last (now w))) :
  eval (chooseEvictCandidate cluster last) w = Some None.
Proof.
  destruct (chooseEvictCandidate_run cluster last w) as [tr E].
  unfold eval. rewrite E. f_equal. unfold detected.
  destruct (total cluster <? 3); [reflexivity|].
  destruct (candidatesOf cluster last (now w)) as [|c [|c2 l]];
    try reflexivity.
  unfold len in Hmany. simpl in Hmany. lia.
Qed.

Lemma chooseEvictCandidate_ambiguous_witness :
  2 <= len (candidatesOf Scenes.twoJitter slowCandidate.empty
              (now Samples.idle)) /\
  eval (chooseEvictCandidate Scenes.twoJitter slowCandidate.empty)
       Samples.idle = Some None.
Proof.
  assert (H : 2 <= len (candidatesOf Scenes.twoJitter slowCandidate.empty
                          (now Samples.idle)))
    by (vm_compute; discriminate).
  split; [exact H|].
  exact (chooseEvictCandidate_ambiguous Scenes.twoJitter slowCandidate.empty
           Samples.idle H).
Defined.

(** X12.  Without the raft-kv2 engine the detector has no memory: what it
    returns depends neither on the last candidate nor on the clock. *)
Theorem chooseEvictCandidate_without_raftkv2 (cluster : SchedulerCluster)
    (last last' : slowCandidate.t) (w w' : World)
    (Hengine : IsRaftKV2 cluster = false) :
  eval (chooseEvictCandidate cluster last) w
  = eval (chooseEvictCandidate cluster last') w'.
Proof.
  destruct (chooseEvictCandidate_run cluster last w) as [tr E].
  destruct (chooseEvictCandidate_run cluster last' w') as [tr' E'].
  unfold eval. rewrite E, E'. f_equal.
  unfold detected, candidatesOf. rewrite Hengine.
  replace (filter (collected false last (now w)) (GetStores cluster))
    with (filter (collected false last' (now w')) (GetStores cluster));
    [reflexivity|].
  apply filter_ext. intros x. unfold collected, secondaryMatch.
  destruct (GetSlowTrend x); reflexivity.
Qed.

Lemma chooseEvictCandidate_without_raftkv2_witness :
  IsRaftKV2 Scenes.fresh = false /\
  eval (chooseEvictCandidate Scenes.fresh slowCandidate.empty) Samples.idle
  = eval (chooseEvictCandidate Scenes.fresh (slowCandidate.mk 1 Samples.t0))
         (Scenes.pending Samples.goodStorage).
Proof.
  split; [reflexivity|].
  exact (chooseEvictCandidate_without_raftkv2 Scenes.fresh
           slowCandidate.empty (slowCandidate.mk 1 Samples.t0) Samples.idle
           (Scenes.pending Samples.goodStorage) eq_refl).
Defined.

(** ** The tick without evicted store *)

(** [Schedule] on a configuration that records no evicted store: the four
    blocks, one after the other. *)
Lemma Schedule_without_eviction cluster dryRun w :
  evictedStoreOf (conf w) = 0 ->
  Schedule cluster dryRun w
  = (candFreshCaptured <- captureBlock cluster ;;
     slowStoreID <- Conf.candidate ;;
     if slowStoreID =? 0 then
       emit (ActionStatusInc "cand.none") ;;
       ret NoOperators
     else handleCandidate cluster slowStoreID candFreshCaptured)
    (sent [SchedulerCounterInc GetName "schedule"] w).
Proof.
  intros Hev. unfold Schedule.
  rewrite (bind_Ok _ _ _ _ _ (emit_sent _ w)).
  rewrite (bind_Ok _ _ _ _ _ (evictedStore_run _)). cbn [conf sent].
  rewrite Hev. reflexivity.
Qed.

Lemma candidate_run w :
  Conf.candidate w = Ok (slowCandidate.storeID (evictCandidate (conf w)), w).
Proof. reflexivity. Qed.

Lemma captureBlock_pending cluster w :
  slowCandidate.storeID (evictCandidate (conf w)) <> 0 ->
  captureBlock cluster w
  = Ok (false, sent [ActionStatusInc "cand.continue"] w).
Proof.
  intros Hid. unfold captureBlock.
  rewrite (bind_Ok _ _ _ _ _ (candidate_run w)).
  apply Z.eqb_neq in Hid. rewrite Hid. reflexivity.
Qed.

Lemma captureBlock_idle cluster w :
  slowCandidate.storeID (evictCandidate (conf w)) = 0 ->
  exists tr,
    captureBlock cluster w
    = Ok (match detected cluster (lastEvictCandidate (conf w)) (now w) with
          | Some _ => true
          | None => false
          end,
          match detected cluster (lastEvictCandidate (conf w)) (now w) with
          | Some store =>
              withConf (capturedConf (GetID store) (now w) (conf w))
                (sent (tr ++ [ActionStatusInc "cand.captured"]) w)
          | None => sent tr w
          end).
Proof.
  intros Hid. unfold captureBlock.
  rewrite (bind_Ok _ _ _ _ _ (candidate_run w)), Hid.
  change (0 =? 0) with true. cbn iota.
  destruct (chooseEvictCandidate_run cluster (lastEvictCandidate (conf w)) w)
    as [tr E].
  exists tr.
  assert (E' : (c <- getConf ;;
                chooseEvictCandidate cluster (lastEvictCandidate c)) w
               = Ok (detected cluster (lastEvictCandidate (conf w)) (now w),
                     sent tr w)) by exact E.
  rewrite (bind_Ok _ _ _ _ _ E').
  destruct (detected cluster (lastEvictCandidate (conf w)) (now w)) as [s|].
  - rewrite (bind_Ok _ _ _ _ _ (emit_sent _ _)), sent_sent.
    rewrite (bind_Ok _ _ _ _ _ (captureCandidate_run _ _)). reflexivity.
  - reflexivity.
Qed.

Lemma handleCandidate_not_cancelled cluster id fresh w :
  (fresh = true
   \/ exists s, GetStore cluster id = Some s
                /\ fasterThanOthers cluster s = false) ->
  exists tr,
    handleCandidate cluster id fresh w
    = confirmCandidate cluster id (sent tr w).
Proof.
  intros H. unfold handleCandidate; cbn zeta.
  destruct fresh; [| destruct H as [H | (s & Hs & Hfast)];
                     [discriminate H|]].
  - exists []. rewrite sent_nil. reflexivity.
  - rewrite Hs. cbn [negb].
    destruct (returns_checkStoreFasterThanOthers cluster s w) as [tr E].
    exists tr. rewrite (bind_Ok _ _ _ _ _ E), Hfast. reflexivity.
Qed.

Lemma confirmCandidate_run cluster id w :
  exists tr,
    confirmCandidate cluster id w
    = if storesAreUpdated cluster id
           (slowCandidate.captureTS (evictCandidate (conf w)))
      then promoteCandidate cluster id (sent tr w)
      else Ok (NoOperators,
               sent (tr ++ [LogInfo "slow store candidate waiting for other stores to update heartbeats" id;
                            ActionStatusInc "cand.wait"]) w).
Proof.
  unfold confirmCandidate.
  rewrite (bind_Ok _ _ _ _ _
             (eq_refl : Conf.captureTS w
                        = Ok (slowCandidate.captureTS
                                (evictCandidate (conf w)), w))).
  destruct (returns_checkStoresAreUpdated cluster id
              (slowCandidate.captureTS (evictCandidate (conf w))) w)
    as [tr E].
  exists tr. rewrite (bind_Ok _ _ _ _ _ E).
  destruct (storesAreUpdated cluster id
              (slowCandidate.captureTS (evictCandidate (conf w))));
    cbn [negb]; [reflexivity|].
  unfold bind. rewrite !emit_sent, !sent_sent. reflexivity.
Qed.

(** The promotion, run: the candidate is popped, recorded and written;
    the cluster is notified only after a write that succeeded, and the
    leaders are asked to move only after a notification that succeeded. *)
Lemma promoteCandidate_run cluster id w :
  persistFail w = false ->
  slowCandidate.storeID (evictCandidate (conf w)) = id ->
  exists pre,
    promoteCandidate cluster id w
    = match SaveScheduleConfig (storage (conf w)) EvictSlowTrendName [id] with
      | Some _ =>
          Ok (NoOperators,
              sent (pre ++ [StorageSave EvictSlowTrendName [id];
                            LogInfo "evict-slow-trend-scheduler persist config failed" id;
                            LogInfo "prepare for evicting leader by slow trend failed" id;
                            ActionStatusInc "evict.prepare.err"])
                   (withConf (promotedConf (conf w)) w))
      | None =>
          match SlowTrendEvictedResult cluster id with
          | Some _ =>
              Ok (NoOperators,
                  sent (pre ++ [StorageSave EvictSlowTrendName [id];
                                NotifyEvicted id;
                                LogInfo "prepare for evicting leader by slow trend failed" id;
                                ActionStatusInc "evict.prepare.err"])
                       (withConf (promotedConf (conf w)) w))
          | None =>
              match GetStore cluster id with
              | Some store =>
                  Ok (EvictLeaderBatch GetName GetType [id],
                      sent (pre ++ [StorageSave EvictSlowTrendName [id];
                                    NotifyEvicted id;
                                    ActionStatusInc "evict.start";
                                    EvictedStatusGaugeSet (GetAddress store)
                                      (GetID store) 1])
                           (withConf (promotedConf (conf w)) w))
              | None =>
                  Ok (NoOperators,
                      sent (pre ++ [StorageSave EvictSlowTrendName [id];
                                    NotifyEvicted id;
                                    ActionStatusInc "evict.start"])
                           (withConf (promotedConf (conf w)) w))
              end
          end
      end.
Proof.
  intros Hpf Hid.
  exists [LogInfo "detected slow store by trend, start to evict leaders" id;
          MiscGaugeSet "cand.captured.secs"
            (SecondsAsUint64
               (Sub (now w)
                    (slowCandidate.captureTS (evictCandidate (conf w)))))].
  unfold promoteCandidate, prepareEvictLeader, Conf.setStoreAndPersist,
    Conf.Persist, Conf.getSchedulerName, SlowTrendEvicted,
    scheduleEvictLeader, scheduleEvictLeaderBatch, Conf.getStores,
    Conf.evictedStore, Conf.candidateCapturedSecs, Conf.popCandidate,
    DurationSinceAsSecs, time_Now, failpoint_persistFail, getConf, setConf,
    emit, bind, ret, sent, withConf, promotedConf, poppedConf.
  cbn. rewrite Hpf, Hid. cbn.
  destruct (SaveScheduleConfig (storage (conf w)) EvictSlowTrendName [id]);
    cbn; [rewrite <- ?app_assoc; reflexivity|].
  destruct (SlowTrendEvictedResult cluster id); cbn;
    [rewrite <- ?app_assoc; reflexivity|].
  destruct (GetStore cluster id); cbn; rewrite <- ?app_assoc; reflexivity.
Qed.

Lemma withConf_sent c tr w : withConf c (sent tr w) = sent tr (withConf c w).
Proof. reflexivity. Qed.

Lemma Schedule_pending cluster dryRun w :
  evictedStoreOf (conf w) = 0 ->
  slowCandidate.storeID (evictCandidate (conf w)) <> 0 ->
  Schedule cluster dryRun w
  = handleCandidate cluster (slowCandidate.storeID (evictCandidate (conf w)))
      false
      (sent [SchedulerCounterInc GetName "schedule";
             ActionStatusInc "cand.continue"] w).
Proof.
  intros Hev Hid. rewrite (Schedule_without_eviction _ _ _ Hev).
  rewrite (bind_Ok _ _ _ _ _
             (captureBlock_pending cluster
                (sent [SchedulerCounterInc GetName "schedule"] w) Hid)).
  rewrite sent_sent.
  rewrite (bind_Ok _ _ _ _ _ (candidate_run _)). cbn [conf sent app].
  apply Z.eqb_neq in Hid. rewrite Hid. reflexivity.
Qed.

(** X13.  A pending candidate that has become no slower than a majority of
    the stores is dropped: the tick returns no operator, pops the candidate
    (the slot is emptied and the candidate remembered as last candidate)
    and leaves the evicted list as it was. *)
Theorem Schedule_cancels_candidate (cluster : SchedulerCluster)
    (dryRun : bool) (w : World) (s : StoreInfo)
    (Hev : evictedStoreOf (conf w) = 0)
    (Hid : slowCandidate.storeID (evictCandidate (conf w)) <> 0)
    (Hstore : GetStore cluster
                (slowCandidate.storeID (evictCandidate (conf w))) = Some s)
    (Hfast : fasterThanOthers cluster s = true) :
  exists pre,
    Schedule cluster dryRun w
    = Ok (NoOperators,
          sent (pre ++ [LogInfo "slow store candidate by trend has been cancel"
                                (slowCandidate.storeID
                                   (evictCandidate (conf w)));
                        ActionStatusInc "cand.cancel:too-faster"])
               (withConf (poppedConf (conf w)) w)).
Proof.
  rewrite (Schedule_pending _ _ _ Hev Hid).
  unfold handleCandidate. cbn zeta. rewrite Hstore. cbn [negb].
  match goal with
  | |- context [checkStoreFasterThanOthers cluster (Some s) _ ?w0] =>
      destruct (returns_checkStoreFasterThanOthers cluster s w0) as [tr E]
  | |- context [bind (checkStoreFasterThanOthers cluster (Some s)) _ ?w0] =>
      destruct (returns_checkStoreFasterThanOthers cluster s w0) as [tr E]
  end.
  rewrite (bind_Ok _ _ _ _ _ E), Hfast.
  rewrite (bind_Ok _ _ _ _ _ (popCandidate_run _)).
  unfold bind. rewrite !emit_sent.
  rewrite !withConf_sent, !sent_sent.
  exists ([SchedulerCounterInc GetName "schedule";
           ActionStatusInc "cand.continue"] ++ tr).
  rewrite <- !app_assoc. reflexivity.
Qed.

Lemma Schedule_cancels_candidate_witness :
  evictedStoreOf (conf (Scenes.pending Samples.goodStorage)) = 0 /\
  slowCandidate.storeID
    (evictCandidate (conf (Scenes.pending Samples.goodStorage))) <> 0 /\
  fasterThanOthers Scenes.recovered
    (Samples.storeOf 1 Serving Samples.healthy (Samples.t0 + Second)) = true /\
  exists pre,
    Schedule Scenes.recovered false (Scenes.pending Samples.goodStorage)
    = Ok (NoOperators,
          sent (pre ++ [LogInfo "slow store candidate by trend has been cancel" 1;
                        ActionStatusInc "cand.cancel:too-faster"])
               (withConf
                  (poppedConf (conf (Scenes.pending Samples.goodStorage)))
                  (Scenes.pending Samples.goodStorage))).
Proof.
  assert (H : slowCandidate.storeID
                (evictCandidate (conf (Scenes.pending Samples.goodStorage)))
              <> 0) by discriminate.
  split; [reflexivity|]. split; [exact H|].
  split; [vm_compute; reflexivity|].
  exact (Schedule_cancels_candidate Scenes.recovered false
           (Scenes.pending Samples.goodStorage)
           (Samples.storeOf 1 Serving Samples.healthy (Samples.t0 + Second))
           eq_refl H eq_refl eq_refl).
Defined.

Lemma Schedule_pending_confirm cluster dryRun w s :
  evictedStoreOf (conf w) = 0 ->
  slowCandidate.storeID (evictCandidate (conf w)) <> 0 ->
  GetStore cluster (slowCandidate.storeID (evictCandidate (conf w)))
    = Some s ->
  fasterThanOthers cluster s = false ->
  exists tr,
    Schedule cluster dryRun w
    = confirmCandidate cluster
        (slowCandidate.storeID (evictCandidate (conf w))) (sent tr w).
Proof.
  intros Hev Hid Hstore Hfast.
  rewrite (Schedule_pending _ _ _ Hev Hid).
  destruct (handleCandidate_not_cancelled cluster
              (slowCandidate.storeID (evictCandidate (conf w))) false
              (sent [SchedulerCounterInc GetName "schedule";
                     ActionStatusInc "cand.continue"] w)) as [tr E].
  { right. exists s. auto. }
  rewrite E, sent_sent. eexists. reflexivity.
Qed.

(** X14.  A pending candidate that is still slower than the others waits
    while the heartbeats are stale: the tick returns no operator and leaves
    the configuration as it was. *)
Theorem Schedule_waits_for_heartbeats (cluster : SchedulerCluster)
    (dryRun : bool) (w : World) (s : StoreInfo)
    (Hev : evictedStoreOf (conf w) = 0)
    (Hid : slowCandidate.storeID (evictCandidate (conf w)) <> 0)
    (Hstore : GetStore cluster
                (slowCandidate.storeID (evictCandidate (conf w))) = Some s)
    (Hfast : fasterThanOthers cluster s = false)
    (Hstale : storesAreUpdated cluster
                (slowCandidate.storeID (evictCandidate (conf w)))
                (slowCandidate.captureTS (evictCandidate (conf w))) = false) :
  exists pre,
    Schedule cluster dryRun w
    = Ok (NoOperators,
          sent (pre ++ [LogInfo "slow store candidate waiting for other stores to update heartbeats"
                                (slowCandidate.storeID
                                   (evictCandidate (conf w)));
                        ActionStatusInc "cand.wait"]) w).
Proof.
  destruct (Schedule_pending_confirm _ dryRun _ _ Hev Hid Hstore Hfast)
    as [tr E].
  rewrite E.
  destruct (confirmCandidate_run cluster
              (slowCandidate.storeID (evictCandidate (conf w)))
              (sent tr w)) as [tr' E'].
  rewrite E'. cbn [conf sent]. rewrite Hstale.
  exists (tr ++ tr'). rewrite sent_sent, <- app_assoc. reflexivity.
Qed.

Lemma Schedule_waits_for_heartbeats_witness :
  evictedStoreOf (conf (Scenes.pending Samples.goodStorage)) = 0 /\
  slowCandidate.storeID
    (evictCandidate (conf (Scenes.pending Samples.goodStorage))) <> 0 /\
  fasterThanOthers Scenes.stale
    (Samples.storeOf 1 Serving Samples.jitter (Samples.t0 - Second)) = false /\
  storesAreUpdated Scenes.stale 1 Samples.t0 = false /\
  exists pre,
    Schedule Scenes.stale false (Scenes.pending Samples.goodStorage)
    = Ok (NoOperators,
          sent (pre ++ [LogInfo "slow store candidate waiting for other stores to update heartbeats" 1;
                        ActionStatusInc "cand.wait"])
               (Scenes.pending Samples.goodStorage)).
Proof.
  assert (H : slowCandidate.storeID
                (evictCandidate (conf (Scenes.pending Samples.goodStorage)))
              <> 0) by discriminate.
  assert (H1 : fasterThanOthers Scenes.stale
                 (Samples.storeOf 1 Serving Samples.jitter
                    (Samples.t0 - Second)) = false)
    by (vm_compute; reflexivity).
  assert (H2 : storesAreUpdated Scenes.stale 1 Samples.t0 = false)
    by (vm_compute; reflexivity).
  split; [reflexivity|]. split; [exact H|]. split; [exact H1|].
  split; [exact H2|].
  exact (Schedule_waits_for_heartbeats Scenes.stale false
           (Scenes.pending Samples.goodStorage) _ eq_refl H eq_refl H1 H2).
Defined.

Lemma Schedule_pending_promote cluster dryRun w s :
  evictedStoreOf (conf w) = 0 ->
  slowCandidate.storeID (evictCandidate (conf w)) <> 0 ->
  GetStore cluster (slowCandidate.storeID (evictCandidate (conf w)))
    = Some s ->
  fasterThanOthers cluster s = false ->
  storesAreUpdated cluster
    (slowCandidate.storeID (evictCandidate (conf w)))
    (slowCandidate.captureTS (evictCandidate (conf w))) = true ->
  exists tr,
    Schedule cluster dryRun w
    = promoteCandidate cluster
        (slowCandidate.storeID (evictCandidate (conf w))) (sent tr w).
Proof.
  intros Hev Hid Hstore Hfast Hupd.
  destruct (Schedule_pending_confirm _ dryRun _ _ Hev Hid Hstore Hfast)
    as [tr E].
  rewrite E.
  destruct (confirmCandidate_run cluster
              (slowCandidate.storeID (evictCandidate (conf w)))
              (sent tr w)) as [tr' E'].
  rewrite E'. cbn [conf sent]. rewrite Hupd, sent_sent.
  eexists. reflexivity.
Qed.

(** X15.  The promotion: a pending candidate that is still slower than the
    others, once the heartbeats are fresh, the write accepted and the
    cluster notified, is popped and recorded as the one evicted store, and
    the tick returns the leader eviction built for it.  The write comes
    first, then the notification, then the request. *)
Theorem Schedule_promotes_candidate (cluster : SchedulerCluster)
    (dryRun : bool) (w : World) (s : StoreInfo)
    (Hev : evictedStoreOf (conf w) = 0)
    (Hid : slowCandidate.storeID (evictCandidate (conf w)) <> 0)
    (Hstore : GetStore cluster
                (slowCandidate.storeID (evictCandidate (conf w))) = Some s)
    (Hfast : fasterThanOthers cluster s = false)
    (Hupd : storesAreUpdated cluster
              (slowCandidate.storeID (evictCandidate (conf w)))
              (slowCandidate.captureTS (evictCandidate (conf w))) = true)
    (Hpf : persistFail w = false)
    (Hsave : SaveScheduleConfig (storage (conf w)) EvictSlowTrendName
               [slowCandidate.storeID (evictCandidate (conf w))] = None)
    (Hhook : SlowTrendEvictedResult cluster
               (slowCandidate.storeID (evictCandidate (conf w))) = None) :
  exists pre,
    Schedule cluster dryRun w
    = Ok (EvictLeaderBatch GetName GetType
            [slowCandidate.storeID (evictCandidate (conf w))],
          sent (pre ++ [StorageSave EvictSlowTrendName
                          [slowCandidate.storeID (evictCandidate (conf w))];
                        NotifyEvicted
                          (slowCandidate.storeID (evictCandidate (conf w)));
                        ActionStatusInc "evict.start";
                        EvictedStatusGaugeSet (GetAddress s) (GetID s) 1])
               (withConf (promotedConf (conf w)) w)).
Proof.
  destruct (Schedule_pending_promote _ dryRun _ _ Hev Hid Hstore Hfast Hupd)
    as [tr E].
  rewrite E.
  destruct (promoteCandidate_run cluster
              (slowCandidate.storeID (evictCandidate (conf w)))
              (sent tr w) Hpf eq_refl) as [pre E'].
  rewrite E'. cbn [conf sent]. rewrite Hsave, Hhook, Hstore.
  exists (tr ++ pre).
  rewrite withConf_sent, sent_sent, <- app_assoc. reflexivity.
Qed.

Lemma Schedule_promotes_candidate_witness :
  evictedStoreOf (conf (Scenes.pending Samples.goodStorage)) = 0 /\
  slowCandidate.storeID
    (evictCandidate (conf (Scenes.pending Samples.goodStorage))) <> 0 /\
  fasterThanOthers Scenes.fresh
    (Samples.storeOf 1 Serving Samples.jitter (Samples.t0 + Second)) = false /\
  storesAreUpdated Scenes.fresh 1 Samples.t0 = true /\
  exists pre,
    Schedule Scenes.fresh false (Scenes.pending Samples.goodStorage)
    = Ok (EvictLeaderBatch GetName GetType [1],
          sent (pre ++ [StorageSave EvictSlowTrendName [1];
                        NotifyEvicted 1;
                        ActionStatusInc "evict.start";
                        EvictedStatusGaugeSet "tikv" 1 1])
               (withConf
                  (promotedConf (conf (Scenes.pending Samples.goodStorage)))
                  (Scenes.pending Samples.goodStorage))).
Proof.
  assert (H : slowCandidate.storeID
                (evictCandidate (conf (Scenes.pending Samples.goodStorage)))
              <> 0) by discriminate.
  assert (H1 : fasterThanOthers Scenes.fresh
                 (Samples.storeOf 1 Serving Samples.jitter
                    (Samples.t0 + Second)) = false)
    by (vm_compute; reflexivity).
  assert (H2 : storesAreUpdated Scenes.fresh 1 Samples.t0 = true)
    by (vm_compute; reflexivity).
  split; [reflexivity|]. split; [exact H|]. split; [exact H1|].
  split; [exact H2|].
  exact (Schedule_promotes_candidate Scenes.fresh false
           (Scenes.pending Samples.goodStorage) _ eq_refl H eq_refl H1 H2
           eq_refl eq_refl eq_refl).
Defined.









Lemma detected_of_eval cluster last w r :
  eval (chooseEvictCandidate cluster last) w = Some r ->
  detected cluster last (now w) = r.
Proof.
  destruct (chooseEvictCandidate_run cluster last w) as [tr E].
  unfold eval. rewrite E. intros H. injection H as H. exact H.
Qed.

(** X18.  With nothing evicted, no candidate pending and nothing detected,
    the tick returns no operator and leaves the configuration as it was. *)
Theorem Schedule_idle_nothing_detected (cluster : SchedulerCluster)
    (dryRun : bool) (w : World)
    (Hev : evictedStoreOf (conf w) = 0)
    (Hid : slowCandidate.storeID (evictCandidate (conf w)) = 0)
    (Hnone : eval (chooseEvictCandidate cluster (lastEvictCandidate (conf w)))
               w = Some None) :
  exists pre,
    Schedule cluster dryRun w
    = Ok (NoOperators, sent (pre ++ [ActionStatusInc "cand.none"]) w).
Proof.
  apply detected_of_eval in Hnone.
  rewrite (Schedule_without_eviction _ _ _ Hev).
  destruct (captureBlock_idle cluster
              (sent [SchedulerCounterInc GetName "schedule"] w) Hid)
    as [tr E].
  cbn [conf now sent] in E. rewrite Hnone in E.
  rewrite (bind_Ok _ _ _ _ _ E), sent_sent.
  rewrite (bind_Ok _ _ _ _ _ (candidate_run _)). cbn [conf sent].
  rewrite Hid. change (0 =? 0) with true. cbn iota.
  unfold bind. rewrite emit_sent, sent_sent.
  eexists. reflexivity.
Qed.

Lemma Schedule_idle_nothing_detected_witness :
  evictedStoreOf (conf Samples.idle) = 0 /\
  slowCandidate.storeID (evictCandidate (conf Samples.idle)) = 0 /\
  eval (chooseEvictCandidate Scenes.recovered
          (lastEvictCandidate (conf Samples.idle))) Samples.idle
    = Some None /\
  exists pre,
    Schedule Scenes.recovered false Samples.idle
    = Ok (NoOperators,
          sent (pre ++ [ActionStatusInc "cand.none"]) Samples.idle).
Proof.
  assert (H : eval (chooseEvictCandidate Scenes.recovered
                      (lastEvictCandidate (conf Samples.idle))) Samples.idle
              = Some None) by (vm_compute; reflexivity).
  split; [reflexivity|]. split; [reflexivity|]. split; [exact H|].
  exact (Schedule_idle_nothing_detected Scenes.recovered false Samples.idle
           eq_refl eq_refl H).
Defined.

Lemma capturedConf_candidate id t c :
  evictCandidate (capturedConf id t c) = slowCandidate.mk id t.
Proof.
  unfold capturedConf. cbn.
  destruct (slowCandidate.eqb (lastEvictCandidate c) slowCandidate.empty);
    reflexivity.
Qed.

(** X19.  The tick that detects a store captures it with the reading of the
    clock, does not ask whether it is faster than the others, and, the
    heartbeats being older than the capture, waits: it returns no operator
    and leaves the evicted list as it was. *)
Theorem Schedule_captures_and_waits (cluster : SchedulerCluster)
    (dryRun : bool) (w : World) (s : StoreInfo)
    (Hev : evictedStoreOf (conf w) = 0)
    (Hid : slowCandidate.storeID (evictCandidate (conf w)) = 0)
    (Hdet : eval (chooseEvictCandidate cluster (lastEvictCandidate (conf w)))
              w = Some (Some s))
    (Hs : GetID s <> 0)
    (Hstale : storesAreUpdated cluster (GetID s) (now w) = false) :
  exists pre,
    Schedule cluster dryRun w
    = Ok (NoOperators,
          sent (pre ++ [LogInfo "slow store candidate waiting for other stores to update heartbeats"
                                (GetID s);
                        ActionStatusInc "cand.wait"])
               (withConf (capturedConf (GetID s) (now w) (conf w)) w))
    /\ In (ActionStatusInc "cand.captured") pre.
Proof.
  apply detected_of_eval in Hdet.
  rewrite (Schedule_without_eviction _ _ _ Hev).
  destruct (captureBlock_idle cluster
              (sent [SchedulerCounterInc GetName "schedule"] w) Hid)
    as [tr E].
  cbn [conf now sent] in E. rewrite Hdet in E.
  rewrite (bind_Ok _ _ _ _ _ E), sent_sent.
  rewrite (bind_Ok _ _ _ _ _ (candidate_run _)).
  cbn [conf withConf]. rewrite capturedConf_candidate.
  cbn [slowCandidate.storeID].
  apply Z.eqb_neq in Hs. rewrite Hs. cbn iota.
  match goal with
  | |- context [handleCandidate _ _ _ ?w0] =>
      destruct (handleCandidate_not_cancelled cluster (GetID s) true w0
                  (or_introl eq_refl)) as [tr1 E1];
      rewrite E1;
      destruct (confirmCandidate_run cluster (GetID s) (sent tr1 w0))
        as [tr2 E2];
      rewrite E2
  end.
  cbn [conf sent withConf]. rewrite capturedConf_candidate.
  cbn [slowCandidate.captureTS]. rewrite Hstale.
  exists (([SchedulerCounterInc GetName "schedule"]
           ++ tr ++ [ActionStatusInc "cand.captured"]) ++ tr1 ++ tr2).
  split; [|in_trace].
  unfold sent, withConf. cbn [conf now persistFail trace].
  rewrite <- !app_assoc. reflexivity.
Qed.

Lemma Schedule_captures_and_waits_witness :
  evictedStoreOf (conf Samples.idle) = 0 /\
  slowCandidate.storeID (evictCandidate (conf Samples.idle)) = 0 /\
  eval (chooseEvictCandidate Scenes.stale
          (lastEvictCandidate (conf Samples.idle))) Samples.idle
    = Some (Some (Samples.storeOf 1 Serving Samples.jitter
                    (Samples.t0 - Second))) /\
  storesAreUpdated Scenes.stale 1 (now Samples.idle) = false /\
  exists pre,
    Schedule Scenes.stale false Samples.idle
    = Ok (NoOperators,
          sent (pre ++ [LogInfo "slow store candidate waiting for other stores to update heartbeats" 1;
                        ActionStatusInc "cand.wait"])
               (withConf (capturedConf 1 (now Samples.idle)
                            (conf Samples.idle)) Samples.idle))
    /\ In (ActionStatusInc "cand.captured") pre.
Proof.
  assert (H : eval (chooseEvictCandidate Scenes.stale
                      (lastEvictCandidate (conf Samples.idle))) Samples.idle
              = Some (Some (Samples.storeOf 1 Serving Samples.jitter
                              (Samples.t0 - Second))))
    by (vm_compute; reflexivity).
  assert (H1 : GetID (Samples.storeOf 1 Serving Samples.jitter
                        (Samples.t0 - Second)) <> 0) by discriminate.
  assert (H2 : storesAreUpdated Scenes.stale 1 (now Samples.idle) = false)
    by (vm_compute; reflexivity).
  split; [reflexivity|]. split; [reflexivity|]. split; [exact H|].
  split; [exact H2|].
  exact (Schedule_captures_and_waits Scenes.stale false Samples.idle _
           eq_refl eq_refl H H1 H2).
Defined.

(** ** The tick on an evicted store *)

Lemma checkStoreCanRecover_not_faster cluster s gap w :
  fasterThanOthers cluster s = false ->
  exists tr,
    checkStoreCanRecover cluster (Some s) gap w = Ok (false, sent tr w).
Proof.
  intros Hfast. unfold checkStoreCanRecover.
  destruct (returns_checkStoreFasterThanOthers cluster s w) as [tr E].
  exists tr. rewrite (bind_Ok _ _ _ _ _ E), Hfast. reflexivity.
Qed.

(** X20.  An evicted store that is in the snapshot, is not removed and is
    not faster than the others (or reports no trend signal) stays evicted:
    the tick leaves the configuration as it was and returns the leader
    eviction built for the evicted list, whatever the time elapsed. *)
Theorem Schedule_keeps_evicting_slow_store (cluster : SchedulerCluster)
    (dryRun : bool) (w : World) (s : StoreInfo)
    (Hev : evictedStoreOf (conf w) <> 0)
    (Hstore : GetStore cluster (evictedStoreOf (conf w)) = Some s)
    (Hrem : IsRemoved s = false)
    (Hfast : fasterThanOthers cluster s = false) :
  exists pre,
    Schedule cluster dryRun w
    = Ok (EvictLeaderBatch GetName GetType (EvictedStores (conf w)),
          sent (pre ++ [ActionStatusInc "evict.continue";
                        EvictedStatusGaugeSet (GetAddress s) (GetID s) 1])
               w).
Proof.
  rewrite (Schedule_evicting _ _ _ Hev). cbn zeta.
  rewrite Hstore, Hrem.
  rewrite (bind_Ok _ _ _ _ _ (candidateCapturedSecs_run _)).
  match goal with
  | |- context [checkStoreCanRecover cluster (Some s) ?gap] =>
      destruct (checkStoreCanRecover_not_faster cluster s gap
                  (sent [SchedulerCounterInc GetName "schedule"] w) Hfast)
        as [tr E]
  end.
  rewrite (bind_Ok _ _ _ _ _ E).
  rewrite (bind_Ok _ _ _ _ _ (emit_sent _ _)).
  unfold scheduleEvictLeader.
  rewrite (bind_Ok _ _ _ _ _ (evictedStore_run _)). cbn [conf sent].
  rewrite Hstore.
  rewrite (bind_Ok _ _ _ _ _ (emit_sent _ _)).
  unfold scheduleEvictLeaderBatch, Conf.getStores, getConf, bind, ret.
  cbn [conf sent]. rewrite !sent_sent.
  exists ([SchedulerCounterInc GetName "schedule"] ++ tr).
  rewrite <- !app_assoc. reflexivity.
Qed.

Lemma Schedule_keeps_evicting_slow_store_witness :
  evictedStoreOf (conf (Samples.evicting1 Samples.goodStorage)) <> 0 /\
  fasterThanOthers Scenes.fresh
    (Samples.storeOf 1 Serving Samples.jitter (Samples.t0 + Second)) = false /\
  exists pre,
    Schedule Scenes.fresh false (Samples.evicting1 Samples.goodStorage)
    = Ok (EvictLeaderBatch GetName GetType [1],
          sent (pre ++ [ActionStatusInc "evict.continue";
                        EvictedStatusGaugeSet "tikv" 1 1])
               (Samples.evicting1 Samples.goodStorage)).
Proof.
  assert (H : evictedStoreOf (conf (Samples.evicting1 Samples.goodStorage))
              <> 0) by discriminate.
  assert (H1 : fasterThanOthers Scenes.fresh
                 (Samples.storeOf 1 Serving Samples.jitter
                    (Samples.t0 + Second)) = false)
    by (vm_compute; reflexivity).
  split; [exact H|]. split; [exact H1|].
  exact (Schedule_keeps_evicting_slow_store Scenes.fresh false
           (Samples.evicting1 Samples.goodStorage) _ H eq_refl eq_refl H1).
Defined.

(** ** What no tick does *)

Lemma post_run {A} (m : M A) w a w1 (Q : A -> World -> Prop) :
  m w = Ok (a, w1) -> Q a w1 -> post m w Q.
Proof. intros E H. unfold post. rewrite E. exact H. Qed.

Lemma post_prepareEvictLeader_records cluster id w
    (Q : error -> World -> Prop) :
  (forall r w', conf w' = with_EvictedStores [id] (conf w) -> Q r w') ->
  post (prepareEvictLeader cluster id) w Q.
Proof.
  intros H.
  unfold post, prepareEvictLeader, Conf.setStoreAndPersist, Conf.Persist,
    Conf.getSchedulerName, SlowTrendEvicted, failpoint_persistFail, getConf,
    setConf, emit, bind, ret. cbn.
  destruct (persistFail w); cbn; [apply H; reflexivity|].
  destruct (SaveScheduleConfig (storage (conf w)) EvictSlowTrendName [id]);
    cbn; apply H; reflexivity.
Qed.

Lemma post_cleanupEvictLeader_clears cluster w (Q : unit -> World -> Prop) :
  (forall w',
     (evictedStoreOf (conf w) = 0 /\ conf w' = conf w)
     \/ (evictedStoreOf (conf w) <> 0
         /\ conf w' = with_EvictedStores [] (conf w)) ->
     Q tt w') ->
  post (cleanupEvictLeader cluster) w Q.
Proof.
  intros H. unfold post.
  destruct (Z.eq_dec (evictedStoreOf (conf w)) 0) as [E | E].
  - rewrite (cleanupEvictLeader_idle _ _ E). apply H. left. auto.
  - destruct (cleanupEvictLeader_run cluster w E) as [tr (E' & _)].
    rewrite E'. apply H. right. auto.
Qed.

Ltac post_walk :=
  lazymatch goal with
  | |- post (ret _) _ _ => apply post_ret
  | |- post (emit _) _ _ => apply post_emit
  | |- post (bind _ _) _ _ => apply post_bind
  | |- post Conf.candidate _ _ =>
      eapply post_returns; [apply returns_candidate | intros ?]
  | |- post Conf.captureTS _ _ =>
      eapply post_returns; [apply returns_captureTS | intros ?]
  | |- post Conf.candidateCapturedSecs _ _ =>
      eapply post_returns; [apply returns_candidateCapturedSecs | intros ?]
  | |- post Conf.evictedStore _ _ =>
      eapply post_returns; [apply returns_evictedStore | intros ?]
  | |- post getConf _ _ =>
      eapply post_returns; [apply returns_getConf | intros ?]
  | |- post (chooseEvictCandidate _ _) _ _ =>
      eapply post_returns; [apply chooseEvictCandidate_run | intros ?]
  | |- post (scheduleEvictLeader _) _ _ =>
      eapply post_returns; [apply returns_scheduleEvictLeader | intros ?]
  | |- post (checkStoresAreUpdated ?c ?i ?t) ?w _ =>
      eapply post_returns;
      [apply returns_checkStoresAreUpdated | intros ?]
  | |- post (checkStoreFasterThanOthers _ _) _ _ =>
      apply post_checkStoreFasterThanOthers; intros ? ?
  | |- post (checkStoreCanRecover _ _ _) _ _ =>
      apply post_checkStoreCanRecover; intros ? ?
  | |- post (deref _) _ _ => apply post_deref; intros ? ?
  | |- post (Conf.captureCandidate _) _ _ =>
      eapply post_run; [apply captureCandidate_run|]
  | |- post Conf.popCandidate _ _ =>
      eapply post_run; [apply popCandidate_run|]
  | |- post (prepareEvictLeader _ _) _ _ =>
      apply post_prepareEvictLeader_records; intros ? ? ?
  | |- post (cleanupEvictLeader _) _ _ =>
      apply post_cleanupEvictLeader_clears; intros ? ?
  end;
  cbn beta iota; cbn [conf now sent withConf].

Lemma capturedConf_evicted id t c :
  EvictedStores (capturedConf id t c) = EvictedStores c.
Proof.
  unfold capturedConf. cbn.
  destruct (slowCandidate.eqb (lastEvictCandidate c) slowCandidate.empty);
    reflexivity.
Qed.

Ltac post_facts :=
  intros; cbn [conf sent withConf] in *;
  repeat match goal with
         | H : negb (_ =? _) = true |- _ =>
             apply negb_true_iff, Z.eqb_neq in H
         | H : negb (_ =? _) = false |- _ =>
             apply negb_false_iff, Z.eqb_eq in H
         | H : (_ =? _) = false |- _ => apply Z.eqb_neq in H
         | H : (_ =? _) = true |- _ => apply Z.eqb_eq in H
         | H : _ /\ _ |- _ => destruct H
         | H : _ \/ _ |- _ => destruct H
         | H : conf ?w = _ |- _ => rewrite H in *; clear H
         end;
  try discriminate;
  unfold poppedConf, evictedStoreOf in *; simpl in *;
  rewrite ?capturedConf_evicted, ?capturedConf_candidate in *; simpl in *.

(** X21.  The evicted list after a tick that returns is the list before it,
    or the empty list when a store was evicted before, or a single store
    with a non-zero id when none was: a tick never adds a second evicted
    store and never replaces one evicted store by another. *)
Theorem Schedule_evicts_one_store (cluster : SchedulerCluster)
    (dryRun : bool) (w : World) :
  post (Schedule cluster dryRun) w
    (fun _ w' =>
       EvictedStores (conf w') = EvictedStores (conf w)
       \/ (evictedStoreOf (conf w) <> 0 /\ EvictedStores (conf w') = [])
       \/ (evictedStoreOf (conf w) = 0
           /\ exists id, id <> 0 /\ EvictedStores (conf w') = [id])).
Proof.
  unfold Schedule.
  repeat (first [ post_walk | post_case ]); post_facts;
    try (left; reflexivity);
    try (right; left; split; [assumption | reflexivity]).
  all: right; right; split; [assumption|]; eexists; split; [|reflexivity];
    assumption.
Qed.

(** X22.  A tick returns a leader eviction only for the store that the
    configuration it leaves records as evicted: the request is built for
    the evicted list, the evicted store has a non-zero id and is in the
    snapshot.  Every other tick that returns hands back no operator. *)
Theorem Schedule_operators_for_evicted_store (cluster : SchedulerCluster)
    (dryRun : bool) (w : World) :
  post (Schedule cluster dryRun) w
    (fun ops w' =>
       match ops with
       | NoOperators => True
       | EvictLeaderBatch name typ stores =>
           name = EvictSlowTrendName /\ typ = EvictSlowTrendType
           /\ stores = EvictedStores (conf w')
           /\ evictedStoreOf (conf w') <> 0
           /\ GetStore cluster (evictedStoreOf (conf w')) <> None
       end).
Proof.
  unfold Schedule.
  repeat (first [ post_walk | post_case ]); try exact I;
    match goal with
    | |- match match ?o with Some _ => _ | None => _ end with _ => _ end =>
        destruct o eqn:Hget; [|exact I]
    end;
    post_facts;
    repeat (split; [reflexivity|]);
    (split; [assumption|]);
    unfold evictedStoreOf in *; simpl in *; congruence.
Qed.

(** X23.  In every world a tick can start in, a store recorded as evicted
    goes with an empty candidate slot: the promotion pops the candidate
    before it records the store, and no tick captures a candidate while a
    store is evicted. *)
Theorem evicting_world_has_no_candidate (w : World)
    (Hreach : reachable w)
    (Hev : evictedStoreOf (conf w) <> 0) :
  evictCandidate (conf w) = slowCandidate.empty
  /\ eval Conf.candidate w = Some 0.
Proof.
  pose proof (reachable_candidate_cleared w Hreach Hev) as H.
  split; [exact H|]. unfold eval. rewrite candidate_run, H. reflexivity.
Qed.

Lemma afterPromotion_reachable : reachable Scenes.afterPromotion.
Proof.
  assert (E1 : exists ops w1,
             Schedule Scenes.stale false Samples.idle = Ok (ops, w1)
             /\ Scenes.afterCapture = at_time (Samples.t0 + 10 * Second) w1).
  { unfold Scenes.afterCapture, Scenes.worldAfter, exec.
    destruct (Schedule Scenes.stale false Samples.idle) as [[ops w1]|] eqn:E.
    - exists ops, w1. split; reflexivity.
    - vm_compute in E. discriminate E. }
  destruct E1 as (ops1 & w1 & E1 & H1).
  assert (E2 : exists ops w2,
             Schedule Scenes.fresh false Scenes.afterCapture = Ok (ops, w2)
             /\ Scenes.afterPromotion
                = at_time (Samples.t0 + 20 * Second) w2).
  { unfold Scenes.afterPromotion, Scenes.worldAfter, exec.
    destruct (Schedule Scenes.fresh false Scenes.afterCapture)
      as [[ops w2]|] eqn:E.
    - exists ops, w2. split; reflexivity.
    - vm_compute in E. discriminate E. }
  destruct E2 as (ops2 & w2 & E2 & H2).
  rewrite H2.
  apply (reachable_tick Scenes.afterCapture Scenes.fresh false ops2 w2);
    [|exact E2].
  rewrite H1.
  apply (reachable_tick Samples.idle Scenes.stale false ops1 w1);
    [|exact E1].
  apply (reachable_installed Samples.goodStorage [] Samples.t0 false).
Qed.

Lemma evicting_world_has_no_candidate_witness :
  evictedStoreOf (conf Scenes.afterPromotion) <> 0 /\
  evictCandidate (conf Scenes.afterPromotion) = slowCandidate.empty /\
  eval Conf.candidate Scenes.afterPromotion = Some 0.
Proof.
  assert (Hev : evictedStoreOf (conf Scenes.afterPromotion) <> 0)
    by (vm_compute; discriminate).
  split; [exact Hev|].
  exact (evicting_world_has_no_candidate Scenes.afterPromotion
           afterPromotion_reachable Hev).
Defined.

(** ** When the tick stops the process *)

Lemma wp_ret {A} (a : A) w (Q : A -> World -> Prop) : Q a w -> wp (ret a) w Q.
Proof. intros H. exact H. Qed.

Lemma wp_emit e w (Q : unit -> World -> Prop) :
  Q tt (sent [e] w) -> wp (emit e) w Q.
Proof. intros H. exact H. Qed.

Lemma wp_bind {A B} (m : M A) (k : A -> M B) w (Q : B -> World -> Prop) :
  wp m w (fun a w1 => wp (k a) w1 Q) -> wp (bind m k) w Q.
Proof.
  unfold wp, bind. destruct (m w) as [[a w1]|]; intros H; exact H.
Qed.

Lemma wp_returns {A} (m : M A) w v (Q : A -> World -> Prop) :
  returns m w v -> (forall tr, Q v (sent tr w)) -> wp m w Q.
Proof. intros [tr E] H. unfold wp. rewrite E. apply H. Qed.

Lemma wp_run {A} (m : M A) w a w1 (Q : A -> World -> Prop) :
  m w = Ok (a, w1) -> Q a w1 -> wp m w Q.
Proof. intros E H. unfold wp. rewrite E. exact H. Qed.

Lemma wp_prepareEvictLeader cluster id w (Q : error -> World -> Prop) :
  (forall r w', conf w' = with_EvictedStores [id] (conf w) -> Q r w') ->
  wp (prepareEvictLeader cluster id) w Q.
Proof.
  intros H.
  unfold wp, prepareEvictLeader, Conf.setStoreAndPersist, Conf.Persist,
    Conf.getSchedulerName, SlowTrendEvicted, failpoint_persistFail, getConf,
    setConf, emit, bind, ret. cbn.
  destruct (persistFail w); cbn; [apply H; reflexivity|].
  destruct (SaveScheduleConfig (storage (conf w)) EvictSlowTrendName [id]);
    cbn; apply H; reflexivity.
Qed.

Lemma wp_cleanupEvictLeader cluster w (Q : unit -> World -> Prop) :
  (forall w', Q tt w') -> wp (cleanupEvictLeader cluster) w Q.
Proof.
  intros H. unfold wp.
  destruct (Z.eq_dec (evictedStoreOf (conf w)) 0) as [E | E].
  - rewrite (cleanupEvictLeader_idle _ _ E). apply H.
  - destruct (cleanupEvictLeader_run cluster w E) as [tr (E' & _)].
    rewrite E'. apply H.
Qed.

Lemma wp_checkStoreCanRecover cluster s gap w (Q : bool -> World -> Prop) :
  (forall b tr, Q b (sent tr w)) ->
  wp (checkStoreCanRecover cluster (Some s) gap) w Q.
Proof.
  intros H. unfold wp.
  destruct (GetSlowTrend s) as [t|] eqn:Ht.
  - destruct (checkStoreCanRecover_run cluster s t gap w Ht) as [tr E].
    rewrite E. apply H.
  - destruct (checkStoreCanRecover_not_faster cluster s gap w) as [tr E].
    { unfold fasterThanOthers. rewrite Ht. reflexivity. }
    rewrite E. apply H.
Qed.

Ltac wp_walk :=
  lazymatch goal with
  | |- wp (ret _) _ _ => apply wp_ret
  | |- wp (emit _) _ _ => apply wp_emit
  | |- wp (bind _ _) _ _ => apply wp_bind
  | |- wp Conf.candidate _ _ =>
      eapply wp_returns; [apply returns_candidate | intros ?]
  | |- wp Conf.captureTS _ _ =>
      eapply wp_returns; [apply returns_captureTS | intros ?]
  | |- wp Conf.candidateCapturedSecs _ _ =>
      eapply wp_returns; [apply returns_candidateCapturedSecs | intros ?]
  | |- wp Conf.evictedStore _ _ =>
      eapply wp_returns; [apply returns_evictedStore | intros ?]
  | |- wp getConf _ _ =>
      eapply wp_returns; [apply returns_getConf | intros ?]
  | |- wp (chooseEvictCandidate _ _) _ _ =>
      eapply wp_returns; [apply chooseEvictCandidate_run | intros ?]
  | |- wp (scheduleEvictLeader _) _ _ =>
      eapply wp_returns; [apply returns_scheduleEvictLeader | intros ?]
  | |- wp (checkStoresAreUpdated _ _ _) _ _ =>
      eapply wp_returns; [apply returns_checkStoresAreUpdated | intros ?]
  | |- wp (checkStoreFasterThanOthers _ (Some _)) _ _ =>
      eapply wp_returns;
      [apply returns_checkStoreFasterThanOthers | intros ?]
  | |- wp (checkStoreCanRecover _ (Some _) _) _ _ =>
      apply wp_checkStoreCanRecover; intros ? ?
  | |- wp (deref (Some _)) _ _ => apply wp_ret
  | |- wp (Conf.captureCandidate _) _ _ =>
      eapply wp_run; [apply captureCandidate_run|]
  | |- wp Conf.popCandidate _ _ =>
      eapply wp_run; [apply popCandidate_run|]
  | |- wp (prepareEvictLeader _ _) _ _ =>
      apply wp_prepareEvictLeader; intros ? ? ?
  | |- wp (cleanupEvictLeader _) _ _ =>
      apply wp_cleanupEvictLeader; intros ?
  | |- wp (if ?b then _ else _) _ _ => destruct b eqn:?
  | |- wp (match ?o with Some _ => _ | None => _ end) _ _ =>
      destruct o eqn:?
  end;
  cbn beta iota; cbn [conf now sent withConf negb].

(** The tick returns when the store it has to look at is in the snapshot:
    the evicted store if there is one, else the candidate that was pending
    when the tick started. *)
Lemma Schedule_returns cluster dryRun w :
  (evictedStoreOf (conf w) <> 0 ->
   GetStore cluster (evictedStoreOf (conf w)) <> None) ->
  (evictedStoreOf (conf w) = 0 ->
   slowCandidate.storeID (evictCandidate (conf w)) <> 0 ->
   GetStore cluster (slowCandidate.storeID (evictCandidate (conf w)))
     <> None) ->
  wp (Schedule cluster dryRun) w (fun _ _ => True).
Proof.
  intros Hevicted Hpending.
  destruct (Z.eq_dec (evictedStoreOf (conf w)) 0) as [Hev | Hev].
  - unfold wp. rewrite (Schedule_without_eviction _ _ _ Hev).
    fold (wp (candFreshCaptured <- captureBlock cluster ;;
              slowStoreID <- Conf.candidate ;;
              (if slowStoreID =? 0
               then emit (ActionStatusInc "cand.none") ;; ret NoOperators
               else handleCandidate cluster slowStoreID candFreshCaptured))
             (sent [SchedulerCounterInc GetName "schedule"] w)
             (fun _ _ => True)).
    destruct (Z.eq_dec (slowCandidate.storeID (evictCandidate (conf w))) 0)
      as [Hid | Hid].
    + unfold captureBlock, handleCandidate, confirmCandidate,
        promoteCandidate.
      repeat (wp_walk; rewrite ?capturedConf_candidate;
              cbn [slowCandidate.storeID];
              try (exfalso;
                   match goal with
                   | H : (_ =? 0) = false |- _ =>
                       apply Z.eqb_neq in H; congruence
                   end));
        exact I.
    + specialize (Hpending Hev Hid).
      destruct (GetStore cluster
                  (slowCandidate.storeID (evictCandidate (conf w))))
        as [s|] eqn:Hs; [|congruence].
      apply wp_bind.
      eapply wp_run;
        [apply (captureBlock_pending cluster
                  (sent [SchedulerCounterInc GetName "schedule"] w) Hid)|].
      apply wp_bind.
      eapply wp_returns; [apply returns_candidate | intros ?].
      cbn [conf sent].
      apply Z.eqb_neq in Hid. rewrite Hid.
      unfold handleCandidate, confirmCandidate, promoteCandidate.
      cbn zeta. rewrite Hs. cbn [negb].
      repeat wp_walk; exact I.
  - specialize (Hevicted Hev).
    destruct (GetStore cluster (evictedStoreOf (conf w))) as [s|] eqn:Hs;
      [|congruence].
    unfold wp. rewrite (Schedule_evicting _ _ _ Hev). cbn zeta. rewrite Hs.
    match goal with
    | |- match ?m ?w0 with _ => _ end => change (wp m w0 (fun _ _ => True))
    end.
    repeat wp_walk; exact I.
Qed.

(** X24.  The tick stops the process in two cases and no other: a store is
    recorded as evicted and is not in the snapshot, or nothing is evicted
    and the candidate that was pending is not in the snapshot. *)
Theorem Schedule_panics_iff (cluster : SchedulerCluster) (dryRun : bool)
    (w : World) :
  Schedule cluster dryRun w = Panic
  <-> (evictedStoreOf (conf w) <> 0
       /\ GetStore cluster (evictedStoreOf (conf w)) = None)
      \/ (evictedStoreOf (conf w) = 0
          /\ slowCandidate.storeID (evictCandidate (conf w)) <> 0
          /\ GetStore cluster
               (slowCandidate.storeID (evictCandidate (conf w))) = None).
Proof.
  split.
  - intros Hpanic.
    destruct (Z.eq_dec (evictedStoreOf (conf w)) 0) as [Hev | Hev].
    + destruct (Z.eq_dec (slowCandidate.storeID (evictCandidate (conf w))) 0)
        as [Hid | Hid].
      * exfalso.
        assert (H : wp (Schedule cluster dryRun) w (fun _ _ => True))
          by (apply Schedule_returns; intros; congruence).
        unfold wp in H. rewrite Hpanic in H. exact H.
      * destruct (GetStore cluster
                    (slowCandidate.storeID (evictCandidate (conf w))))
          as [s|] eqn:Hs; [|right; auto].
        exfalso.
        assert (H : wp (Schedule cluster dryRun) w (fun _ _ => True))
          by (apply Schedule_returns; intros; congruence).
        unfold wp in H. rewrite Hpanic in H. exact H.
    + destruct (GetStore cluster (evictedStoreOf (conf w))) as [s|] eqn:Hs;
        [|left; auto].
      exfalso.
      assert (H : wp (Schedule cluster dryRun) w (fun _ _ => True))
        by (apply Schedule_returns; intros; congruence).
      unfold wp in H. rewrite Hpanic in H. exact H.
  - intros [[Hev Hnone] | (Hev & Hid & Hnone)].
    + apply Schedule_evicted_store_missing; assumption.
    + rewrite (Schedule_pending _ _ _ Hev Hid).
      unfold handleCandidate. cbn zeta. rewrite Hnone. reflexivity.
Qed.
